(** * Final_WeighScale.ino: a shallow embedding of the HX711 weigh scale

    The sketch runs on an STM32F103 (ILP32): [long] and [unsigned long] are
    32 bits wide and [float] is IEEE 754 binary32.  Integers are modelled as
    [Z] with the wrap-around written out, floats as [spec_float] with the
    binary32 parameters, the [Scale] object and the two volatile flags as
    one record, and the collaborators (HX711, LCD, TM1637, the millisecond
    clock, the two button interrupts) as an explicit environment. *)

From Stdlib Require Import ZArith Bool List Lia String QArith Qabs.
From Stdlib Require Import Floats.SpecFloat.
Import ListNotations.
Open Scope Z_scope.

(** ** Machine integers *)

Module C32.

Definition modulus : Z := 2 ^ 32.
Definition LONG_MAX : Z := 2 ^ 31 - 1.
Definition LONG_MIN : Z := - 2 ^ 31.

(** [long]: two's complement, 32 bits. *)
Definition wrap_long (z : Z) : Z := (z + 2 ^ 31) mod modulus - 2 ^ 31.

(** [unsigned long]: arithmetic modulo 2^32. *)
Definition wrap_ulong (z : Z) : Z := z mod modulus.

Definition in_long (z : Z) : Prop := LONG_MIN <= z <= LONG_MAX.

End C32.

(** ** binary32 floats *)

Module F32.

Definition prec : Z := 24.
Definition emax : Z := 128.

Definition float32 : Type := spec_float.

Definition mul : float32 -> float32 -> float32 := SFmul prec emax.
Definition div : float32 -> float32 -> float32 := SFdiv prec emax.
Definition sub : float32 -> float32 -> float32 := SFsub prec emax.

(** Conversion of an integer to [float], round to nearest even. *)
Definition of_long (z : Z) : float32 := binary_normalize prec emax z 0 false.

(** A decimal literal [m * 10^0] that is an integer, such as [200.0]. *)
Definition of_literal (z : Z) : float32 := of_long z.

(** Conversion of a [float] to [long]: the fraction is discarded.  Outside
    the range of [long] the conversion of the ARM run-time saturates, and
    a NaN gives 0. *)
Definition to_long (x : float32) : Z :=
  match x with
  | S754_zero _ => 0
  | S754_infinity s => if s then C32.LONG_MIN else C32.LONG_MAX
  | S754_nan => 0
  | S754_finite s m e =>
      let mag := if 0 <=? e then Z.pos m * 2 ^ e else Z.pos m / 2 ^ (- e) in
      let v := if s then - mag else mag in
      Z.max C32.LONG_MIN (Z.min C32.LONG_MAX v)
  end.

(** The rational a finite float stands for (0 for the others). *)
Definition to_Q (x : float32) : Q :=
  match x with
  | S754_finite s m e =>
      let q := if 0 <=? e then inject_Z (Z.pos m * 2 ^ e)
               else Qmake (Z.pos m) (Z.to_pos (2 ^ (- e))) in
      if s then Qopp q else q
  | _ => 0%Q
  end.

End F32.

Import C32 F32.

(** ** Constants of the sketch *)

Definition TARE_SAMPLES : Z := 10.
Definition KNOWN_WEIGHT : float32 := of_literal 200.
Definition RAW_0G : Z := 16773520.
Definition RAW_100G : Z := 16758735.
Definition WEIGHT_DIFFERENCE : float32 := of_literal 100.
Definition COUNT_DIFFERENCE : Z := wrap_long (RAW_0G - RAW_100G).
Definition CALIBRATION_FACTOR : float32 :=
  div WEIGHT_DIFFERENCE (of_long COUNT_DIFFERENCE).
Definition DISPLAY_UPDATE_INTERVAL : Z := 1000.

(** ** The collaborators *)

Inductive Button : Type := CalibrateButton | ResetButton.

Definition Button_eqb (a b : Button) : bool :=
  match a, b with
  | CalibrateButton, CalibrateButton => true
  | ResetButton, ResetButton => true
  | _, _ => false
  end.

(** What the sketch sends to the two displays. *)
Inductive Output : Type :=
| LcdBegin (cols rows : Z)
| LcdClear
| LcdSetCursor (col row : Z)
| LcdPrint (s : string)
| LcdPrintFloat (v : float32) (digits : Z)
| LcdPrintLong (n : Z)
| TmInit
| TmSet
| TmClearDisplay
| TmDisplayFloat (v : float32).

(** The [Scale] object ([tare], [lastUpdateTime]), the two global flags,
    and what the run has seen of its surroundings: the wall clock in
    milliseconds since boot, the number of HX711 conversions consumed and
    the display traffic, newest first, stamped with the wall clock. *)
Record World : Type := mkWorld {
  tare : Z;
  lastUpdateTime : Z;
  calibratePressed : bool;
  resetPressed : bool;
  now : Z;
  nread : nat;
  out : list (Z * Output)
}.

Definition set_tare (v : Z) (w : World) : World :=
  mkWorld v (lastUpdateTime w) (calibratePressed w) (resetPressed w)
          (now w) (nread w) (out w).
Definition set_lastUpdateTime (v : Z) (w : World) : World :=
  mkWorld (tare w) v (calibratePressed w) (resetPressed w)
          (now w) (nread w) (out w).
Definition set_calibratePressed (b : bool) (w : World) : World :=
  mkWorld (tare w) (lastUpdateTime w) b (resetPressed w)
          (now w) (nread w) (out w).
Definition set_resetPressed (b : bool) (w : World) : World :=
  mkWorld (tare w) (lastUpdateTime w) (calibratePressed w) b
          (now w) (nread w) (out w).
Definition set_now (t : Z) (w : World) : World :=
  mkWorld (tare w) (lastUpdateTime w) (calibratePressed w) (resetPressed w)
          t (nread w) (out w).
Definition set_nread (n : nat) (w : World) : World :=
  mkWorld (tare w) (lastUpdateTime w) (calibratePressed w) (resetPressed w)
          (now w) n (out w).
Definition set_out (o : list (Z * Output)) (w : World) : World :=
  mkWorld (tare w) (lastUpdateTime w) (calibratePressed w) (resetPressed w)
          (now w) (nread w) o.

(** The state of the constructor: [tare = 0], [lastUpdateTime = 0], both
    flags false. *)
Definition Scale_new : World := mkWorld 0 0 false false 0 0%nat [].

(** ** A state monad with failure

    The only computation that can fail is the busy wait of
    [calibrateScale] when its fuel runs out; [calibrateScale_total] below
    shows that it never does. *)

Definition M (A : Type) : Type := World -> option (A * World).

Definition ret {A} (a : A) : M A := fun w => Some (a, w).

Definition bind {A B} (c : M A) (k : A -> M B) : M B :=
  fun w => match c w with
           | Some (a, w') => k a w'
           | None => None
           end.

Definition gets {A} (f : World -> A) : M A := fun w => Some (f w, w).
Definition modify (f : World -> World) : M unit := fun w => Some (tt, f w).
Definition abort {A} : M A := fun _ => None.

Declare Scope scale_scope.
Delimit Scope scale_scope with scale.
Notation "x <- c ;; k" := (bind c (fun x => k))
  (at level 61, c at next level, right associativity) : scale_scope.
Notation "c ;; k" := (bind c (fun _ => k))
  (at level 61, right associativity) : scale_scope.
Open Scope scale_scope.

(** ** The sketch *)

(** One poll of a busy wait is taken to last a millisecond: polls that fall
    within the same millisecond read the same [millis()] and a flag raised
    between them is seen by the last of them. *)
Definition POLL_MS : Z := 1.

(** Polls granted to the busy wait of [calibrateScale]. *)
Definition WAIT_FUEL : nat := Z.to_nat 5001.

Section Sketch.

(** The environment of a run: the conversions the HX711 delivers, in
    order, and the falling edges on the two button lines, each with the
    wall-clock millisecond it occurs in. *)
Variable samples : nat -> Z.
Variable presses : list (Z * Button).

(** *** Interrupts *)

Definition onCalibrateButtonPress (w : World) : World :=
  set_calibratePressed true w.

Definition onResetButtonPress (w : World) : World :=
  set_resetPressed true w.

Definition isr (b : Button) : World -> World :=
  match b with
  | CalibrateButton => onCalibrateButtonPress
  | ResetButton => onResetButtonPress
  end.

(** A press is due in the interval (t0, t1]. *)
Definition due (t0 t1 : Z) (p : Z * Button) : bool :=
  (t0 <? fst p) && (fst p <=? t1).

(** The handlers of the presses due in (t0, t1] run, in schedule order. *)
Definition deliver (t0 t1 : Z) (w : World) : World :=
  fold_left (fun w p => if due t0 t1 p then isr (snd p) w else w) presses w.

(** Time passes: the clock moves and the interrupts of the interval are
    taken. *)
Definition advance (dt : Z) : M unit :=
  modify (fun w => deliver (now w) (now w + dt) (set_now (now w + dt) w)).

(** *** Arduino core and drivers *)

Definition millis : M Z := gets (fun w => wrap_ulong (now w)).

Definition delay (ms : Z) : M unit := advance ms.

Definition emit (o : Output) : M unit :=
  modify (fun w => set_out ((now w, o) :: out w) w).

(** [scale.read()]: the next conversion of the HX711.  The driver blocks
    until the converter is ready and the sketch does nothing in the
    meantime.  The model gives a conversion no duration of its own: the
    time the conversions of a refresh take is left to the gaps between the
    calls of [loop], and a duration proved of [setup], [resetScale] or
    [calibrateScale] is that of their pauses and of the wait, a lower bound
    for the sketch on the bench. *)
Definition scale_read : M Z :=
  fun w => Some (samples (nread w), set_nread (S (nread w)) w).

(** *** Scale::tareScale *)

(** The body of [for (int i = 0; i < TARE_SAMPLES; i++) sum += scale.read();]
    with [n] iterations left. *)
Fixpoint read_sum (n : nat) (sum : Z) : M Z :=
  match n with
  | O => ret sum
  | S k => r <- scale_read ;; read_sum k (wrap_long (sum + r))
  end.

Definition tareScale : M unit :=
  sum <- read_sum (Z.to_nat TARE_SAMPLES) 0 ;;
  modify (set_tare (Z.quot sum TARE_SAMPLES)).

(** *** Scale::getWeight *)

Definition getWeight : M float32 :=
  raw <- scale_read ;;
  t <- gets tare ;;
  ret (mul (mul (of_long (wrap_long (raw - t))) CALIBRATION_FACTOR)
           (of_long (-1))).

(** *** Scale::resetScale *)

Definition resetScale : M unit :=
  emit LcdClear ;;
  emit TmClearDisplay ;;
  emit (LcdSetCursor 0 0) ;;
  emit (LcdPrint "Resetting...") ;;
  modify (set_tare 0) ;;
  delay 2000 ;;
  emit LcdClear ;;
  emit (LcdSetCursor 0 0) ;;
  emit (LcdPrint "Reset Done") ;;
  delay 2000 ;;
  emit LcdClear ;;
  tareScale.

(** *** Scale::calibrateScale *)

(** How the five-second wait ended. *)
Inductive WaitEnd : Type := TimedOut | ResetTaken.

(** [while (millis() - startTime < 5000) { if (resetPressed) { ... return; } }] *)
Fixpoint wait_for_reset (fuel : nat) (startTime : Z) : M WaitEnd :=
  match fuel with
  | O => abort
  | S k =>
      t <- millis ;;
      if wrap_ulong (t - startTime) <? 5000 then
        rp <- gets resetPressed ;;
        if rp then
          resetScale ;;
          modify (set_resetPressed false) ;;
          ret ResetTaken
        else
          advance POLL_MS ;;
          wait_for_reset k startTime
      else ret TimedOut
  end.

Definition calibrateScale : M unit :=
  emit LcdClear ;;
  emit (LcdSetCursor 0 0) ;;
  emit (LcdPrint "Put 200g Weight") ;;
  startTime <- millis ;;
  e <- wait_for_reset WAIT_FUEL startTime ;;
  match e with
  | ResetTaken => ret tt
  | TimedOut =>
      sum <- read_sum (Z.to_nat TARE_SAMPLES) 0 ;;
      let raw_known_weight := Z.quot sum TARE_SAMPLES in
      modify (set_tare (to_long (sub (of_long raw_known_weight)
                                     (div KNOWN_WEIGHT CALIBRATION_FACTOR)))) ;;
      emit TmClearDisplay ;;
      emit LcdClear ;;
      emit (LcdSetCursor 0 0) ;;
      emit (LcdPrint "Calibration Done") ;;
      delay 2000 ;;
      emit LcdClear
  end.

(** *** Scale::updateDisplay *)

Definition updateDisplay : M unit :=
  weight <- getWeight ;;
  emit (TmDisplayFloat weight) ;;
  emit (LcdSetCursor 0 0) ;;
  emit (LcdPrint "Weight: ") ;;
  emit (LcdPrintFloat weight 2) ;;
  emit (LcdPrint " KG") ;;
  emit (LcdSetCursor 0 1) ;;
  emit (LcdPrint "Count: ") ;;
  r <- scale_read ;;
  emit (LcdPrintLong r).

(** *** Scale::setup *)

(** [scale.begin], [pinMode] and [attachInterrupt] (lines 83-89) leave no
    trace on the displays.  The driver calls that precede them take no time
    in the model, which so has the handlers attached from the start; on the
    bench a press that falls before line 88 is reached is lost. *)

Definition setup : M unit :=
  emit TmInit ;;
  emit TmSet ;;
  emit (LcdBegin 16 2) ;;
  emit (LcdSetCursor 0 0) ;;
  emit (LcdPrint "HX711 Calibrate") ;;
  emit (LcdSetCursor 0 1) ;;
  emit (LcdPrint "No weight") ;;
  delay 2000 ;;
  emit LcdClear ;;
  tareScale ;;
  emit (LcdSetCursor 0 0) ;;
  emit (LcdPrint "Calibrating...") ;;
  delay 2000 ;;
  emit LcdClear.

(** *** Scale::loop *)

Definition loop : M unit :=
  currentTime <- millis ;;
  cp <- gets calibratePressed ;;
  (if cp then calibrateScale ;; modify (set_calibratePressed false)
   else ret tt) ;;
  rp <- gets resetPressed ;;
  if rp then
    resetScale ;;
    modify (set_resetPressed false)
  else
    last <- gets lastUpdateTime ;;
    if DISPLAY_UPDATE_INTERVAL <=? wrap_ulong (currentTime - last) then
      updateDisplay ;;
      modify (set_lastUpdateTime currentTime)
    else ret tt.

(** The Arduino core calls [loop()] for ever; [gaps] gives the time that
    passes before each of the calls of a finite prefix. *)
Fixpoint run (gaps : list Z) : M unit :=
  match gaps with
  | [] => ret tt
  | g :: gs => advance g ;; loop ;; run gs
  end.

End Sketch.

(** ** Vocabulary of the specification *)

(** The HX711 is a 24-bit converter: a driver hands its count out either
    sign-extended or as an unsigned 24-bit number (the reference readings
    [RAW_0G] and [RAW_100G] are of the second kind). *)
Definition hx711_range (v : Z) : Prop := - 2 ^ 23 <= v < 2 ^ 24.

(** The [n] conversions that follow the first [i]. *)
Definition readings (samples : nat -> Z) (i n : nat) : list Z :=
  map samples (seq i n).

Definition total (l : list Z) : Z := fold_right Z.add 0 l.

(** [m] is the arithmetic mean of [l]. *)
Definition is_arithmetic_mean (l : list Z) (m : Z) : Prop :=
  m * Z.of_nat (List.length l) = total l.

(** What [read_sum] accumulates, wrap-around included. *)
Fixpoint wrapped_sum (samples : nat -> Z) (i n : nat) (sum : Z) : Z :=
  match n with
  | O => sum
  | S k => wrapped_sum samples (S i) k (wrap_long (sum + samples i))
  end.

(** Some press of button [b] is due in (t0, t1]. *)
Definition edge (presses : list (Z * Button)) (b : Button) (t0 t1 : Z) : bool :=
  existsb (fun p => due t0 t1 p && Button_eqb (snd p) b) presses.

(** The world once the clock has reached [t]. *)
Definition at_time (presses : list (Z * Button)) (t : Z) (w : World) : World :=
  deliver presses (now w) t (set_now t w).

Definition is_refresh (o : Output) : bool :=
  match o with TmDisplayFloat _ => true | _ => false end.

Definition is_reset (o : Output) : bool :=
  match o with LcdPrint s => String.eqb s "Resetting..." | _ => false end.

Definition is_calibrated (o : Output) : bool :=
  match o with LcdPrint s => String.eqb s "Calibration Done" | _ => false end.

Definition count_out (f : Output -> bool) (w : World) : nat :=
  List.length (filter (fun p => f (snd p)) (out w)).

(** Wall-clock times at which the display was refreshed, newest first. *)
Definition refresh_times (w : World) : list Z :=
  map fst (filter (fun p => is_refresh (snd p)) (out w)).

(** The weight [getWeight] reports for a raw count and a tare. *)
Definition weight_of (raw t : Z) : float32 :=
  mul (mul (of_long (wrap_long (raw - t))) CALIBRATION_FACTOR) (of_long (-1)).

(** The tare [calibrateScale] installs for an averaged raw count. *)
Definition calibrated_tare (raw_known_weight : Z) : Z :=
  to_long (sub (of_long raw_known_weight) (div KNOWN_WEIGHT CALIBRATION_FACTOR)).

Definition world_of (r : option (unit * World)) : World :=
  match r with Some (_, w) => w | None => Scale_new end.

(** The display traffic of [resetScale] started at wall-clock time [t]. *)
Definition reset_out (t : Z) (o : list (Z * Output)) : list (Z * Output) :=
  (t + 4000, LcdClear) :: (t + 2000, LcdPrint "Reset Done") ::
  (t + 2000, LcdSetCursor 0 0) :: (t + 2000, LcdClear) ::
  (t, LcdPrint "Resetting...") :: (t, LcdSetCursor 0 0) ::
  (t, TmClearDisplay) :: (t, LcdClear) :: o.

(** The world [resetScale] leaves. *)
Definition reset_world (samples : nat -> Z) (presses : list (Z * Button))
    (w : World) : World :=
  mkWorld (Z.quot (wrapped_sum samples (nread w) 10 0) TARE_SAMPLES)
          (lastUpdateTime w)
          (calibratePressed w || edge presses CalibrateButton (now w) (now w + 4000))
          (resetPressed w || edge presses ResetButton (now w) (now w + 4000))
          (now w + 4000) (10 + nread w) (reset_out (now w) (out w)).

(** Lines 178-182, the opening of [resetScale]: the displays are blanked,
    "Resetting..." is shown and the tare is cleared. *)
Definition reset_clears : M unit :=
  emit LcdClear ;;
  emit TmClearDisplay ;;
  emit (LcdSetCursor 0 0) ;;
  emit (LcdPrint "Resetting...") ;;
  modify (set_tare 0).

(** Lines 183-188 of [resetScale]: the two pauses around "Reset Done". *)
Definition reset_pauses (presses : list (Z * Button)) : M unit :=
  delay presses 2000 ;;
  emit LcdClear ;;
  emit (LcdSetCursor 0 0) ;;
  emit (LcdPrint "Reset Done") ;;
  delay presses 2000 ;;
  emit LcdClear.

(** The world once [calibrateScale] has put its prompt on the LCD. *)
Definition prompted (w : World) : World :=
  set_out ((now w, LcdPrint "Put 200g Weight") :: (now w, LcdSetCursor 0 0) ::
           (now w, LcdClear) :: out w) w.

(** The display traffic that ends a calibration whose wait began at [t]. *)
Definition calibrated_out (t : Z) (o : list (Z * Output)) : list (Z * Output) :=
  (t + 7000, LcdClear) :: (t + 5000, LcdPrint "Calibration Done") ::
  (t + 5000, LcdSetCursor 0 0) :: (t + 5000, LcdClear) ::
  (t + 5000, TmClearDisplay) :: o.

(** The world a calibration leaves when no reset cut its wait short. *)
Definition calibrated_world (samples : nat -> Z) (presses : list (Z * Button))
    (w : World) : World :=
  mkWorld (calibrated_tare (Z.quot (wrapped_sum samples (nread w) 10 0) TARE_SAMPLES))
          (lastUpdateTime w)
          (calibratePressed w || edge presses CalibrateButton (now w) (now w + 7000))
          (resetPressed w || edge presses ResetButton (now w) (now w + 7000))
          (now w + 7000) (10 + nread w)
          (calibrated_out (now w) (out (prompted w))).

(** The reset flag as the poll at wall-clock time [t] reads it. *)
Definition reset_seen (presses : list (Z * Button)) (w : World) (t : Z) : bool :=
  resetPressed (at_time presses t w).

Ltac zbool :=
  repeat match goal with
  | |- context [?a <? ?b] => destruct (Z.ltb_spec a b)
  | |- context [?a <=? ?b] => destruct (Z.leb_spec a b)
  end; cbn; try reflexivity; try lia.

(** The display traffic of [updateDisplay] at wall-clock time [t]. *)
Definition refresh_out (t : Z) (weight : float32) (count : Z)
    (o : list (Z * Output)) : list (Z * Output) :=
  (t, LcdPrintLong count) :: (t, LcdPrint "Count: ") ::
  (t, LcdSetCursor 0 1) :: (t, LcdPrint " KG") ::
  (t, LcdPrintFloat weight 2) :: (t, LcdPrint "Weight: ") ::
  (t, LcdSetCursor 0 0) :: (t, TmDisplayFloat weight) :: o.

(** The world [updateDisplay] leaves. *)
Definition refreshed_world (samples : nat -> Z) (w : World) : World :=
  mkWorld (tare w) (lastUpdateTime w) (calibratePressed w) (resetPressed w)
          (now w) (2 + nread w)
          (refresh_out (now w) (weight_of (samples (nread w)) (tare w))
                       (samples (S (nread w))) (out w)).

(** The world after the first [if] of [loop]. *)
Definition after_calibrate (samples : nat -> Z) (presses : list (Z * Button))
    (w : World) : World :=
  if calibratePressed w then
    set_calibratePressed false (world_of (calibrateScale samples presses w))
  else w.

(** The test of the third [if] of [loop]. *)
Definition refresh_due (currentTime : Z) (w : World) : bool :=
  DISPLAY_UPDATE_INTERVAL <=? wrap_ulong (currentTime - lastUpdateTime w).

(** The world one call of [loop] leaves. *)
Definition loop_world (samples : nat -> Z) (presses : list (Z * Button))
    (w : World) : World :=
  let w1 := after_calibrate samples presses w in
  if resetPressed w1 then set_resetPressed false (reset_world samples presses w1)
  else if refresh_due (wrap_ulong (now w)) w1 then
         set_lastUpdateTime (wrap_ulong (now w)) (refreshed_world samples w1)
       else w1.




(** The display traffic of [setup] started at wall-clock time [t]. *)
Definition setup_out (t : Z) (o : list (Z * Output)) : list (Z * Output) :=
  (t + 4000, LcdClear) :: (t + 2000, LcdPrint "Calibrating...") ::
  (t + 2000, LcdSetCursor 0 0) :: (t + 2000, LcdClear) ::
  (t, LcdPrint "No weight") :: (t, LcdSetCursor 0 1) ::
  (t, LcdPrint "HX711 Calibrate") :: (t, LcdSetCursor 0 0) ::
  (t, LcdBegin 16 2) :: (t, TmSet) :: (t, TmInit) :: o.

(** The world [setup] leaves. *)
Definition setup_world (samples : nat -> Z) (presses : list (Z * Button))
    (w : World) : World :=
  mkWorld (Z.quot (wrapped_sum samples (nread w) 10 0) TARE_SAMPLES)
          (lastUpdateTime w)
          (calibratePressed w || edge presses CalibrateButton (now w) (now w + 4000))
          (resetPressed w || edge presses ResetButton (now w) (now w + 4000))
          (now w + 4000) (10 + nread w) (setup_out (now w) (out w)).

(** The prompt that opens every calibration. *)
Definition is_prompt (o : Output) : bool :=
  match o with LcdPrint s => String.eqb s "Put 200g Weight" | _ => false end.

(** Runs the straight-line part of a computation in the monad. *)
Tactic Notation "exec" "in" hyp(H) :=
  cbv beta iota delta
      [bind ret gets modify emit delay millis
       tare lastUpdateTime calibratePressed resetPressed now nread out
       set_tare set_lastUpdateTime set_calibratePressed set_resetPressed
       set_now set_nread set_out] in H.

Tactic Notation "exec" :=
  cbv beta iota delta
      [bind ret gets modify emit delay millis
       tare lastUpdateTime calibratePressed resetPressed now nread out
       set_tare set_lastUpdateTime set_calibratePressed set_resetPressed
       set_now set_nread set_out].

(** ** Machine arithmetic *)

Lemma wrap_long_small z : in_long z -> wrap_long z = z.
Proof.
  unfold in_long, wrap_long, LONG_MIN, LONG_MAX, modulus. intros H.
  rewrite Z.mod_small; lia.
Qed.

(** The elapsed time read off two [millis()] values is exact below 2^32 ms. *)
Lemma elapsed_exact t d :
  0 <= d < 2 ^ 32 -> wrap_ulong (wrap_ulong (t + d) - wrap_ulong t) = d.
Proof.
  unfold wrap_ulong, modulus. intros H.
  rewrite <- Zminus_mod. replace (t + d - t) with d by lia.
  apply Z.mod_small. lia.
Qed.

Lemma quot_mean_exact v : Z.quot (TARE_SAMPLES * v) TARE_SAMPLES = v.
Proof. unfold TARE_SAMPLES. rewrite Z.mul_comm. apply Z.quot_mul. lia. Qed.

Lemma quot_between lo hi s :
  TARE_SAMPLES * lo <= s <= TARE_SAMPLES * hi ->
  lo <= Z.quot s TARE_SAMPLES <= hi.
Proof.
  intros [H1 H2]. split.
  - rewrite <- (quot_mean_exact lo) at 1. apply Z.quot_le_mono; [reflexivity | lia].
  - rewrite <- (quot_mean_exact hi) at 1. apply Z.quot_le_mono; [reflexivity | lia].
Qed.

(** Truncation moves the quotient less than one count away from the mean. *)
Lemma quot_near s :
  Z.abs (s - TARE_SAMPLES * Z.quot s TARE_SAMPLES) < TARE_SAMPLES.
Proof.
  unfold TARE_SAMPLES.
  pose proof (Z.quot_rem' s 10) as E.
  pose proof (Z.rem_bound_abs s 10 ltac:(lia)) as B.
  lia.
Qed.

(** ** The running sum *)

Section Sums.

Variable samples : nat -> Z.

Lemma total_readings_S i n :
  total (readings samples i (S n)) = samples i + total (readings samples (S i) n).
Proof. reflexivity. Qed.

Lemma total_readings_bounds lo hi n : forall i,
  (forall k, (i <= k < i + n)%nat -> lo <= samples k <= hi) ->
  Z.of_nat n * lo <= total (readings samples i n) <= Z.of_nat n * hi.
Proof.
  induction n as [| n IH]; intros i H.
  - cbn. lia.
  - rewrite total_readings_S.
    specialize (IH (S i)).
    assert (Hi : lo <= samples i <= hi) by (apply H; lia).
    assert (Hr : forall k, (S i <= k < S i + n)%nat -> lo <= samples k <= hi)
      by (intros k Hk; apply H; lia).
    specialize (IH Hr). lia.
Qed.

(** No partial sum leaves [long] when the readings stay in [lo, hi] and the
    extreme sums fit. *)
Lemma wrapped_sum_exact lo hi n : forall i sum,
  lo <= 0 <= hi ->
  (forall k, (i <= k < i + n)%nat -> lo <= samples k <= hi) ->
  LONG_MIN <= sum + Z.of_nat n * lo ->
  sum + Z.of_nat n * hi <= LONG_MAX ->
  wrapped_sum samples i n sum = sum + total (readings samples i n).
Proof.
  induction n as [| n IH]; intros i sum Hz H Hlo Hhi.
  - cbn. lia.
  - cbn [wrapped_sum]. rewrite total_readings_S.
    assert (Hi : lo <= samples i <= hi) by (apply H; lia).
    rewrite wrap_long_small by (unfold in_long; nia).
    rewrite (IH (S i)); try lia.
    intros k Hk. apply H. lia.
Qed.

Lemma wrapped_sum_hx711 i :
  (forall k, (i <= k < i + 10)%nat -> hx711_range (samples k)) ->
  wrapped_sum samples i 10 0 = total (readings samples i 10).
Proof.
  intros H.
  rewrite (wrapped_sum_exact (- 2 ^ 23) (2 ^ 24 - 1)).
  - lia.
  - lia.
  - intros k Hk. specialize (H k Hk). unfold hx711_range in H. lia.
  - unfold LONG_MIN. lia.
  - unfold LONG_MAX. lia.
Qed.

Lemma total_constant v n : forall i,
  (forall k, (i <= k < i + n)%nat -> samples k = v) ->
  total (readings samples i n) = Z.of_nat n * v.
Proof.
  induction n as [| n IH]; intros i H.
  - reflexivity.
  - rewrite total_readings_S, (H i) by lia.
    rewrite (IH (S i)) by (intros k Hk; apply H; lia). lia.
Qed.

End Sums.

(** ** The monad *)

Lemma bind_Some {A B} (c : M A) (k : A -> M B) w a w' :
  c w = Some (a, w') -> bind c k w = k a w'.
Proof. intros H. unfold bind. rewrite H. reflexivity. Qed.

(** ** Time and interrupts *)

Lemma due_split t0 t1 t2 p :
  t0 <= t1 <= t2 -> due t0 t1 p || due t1 t2 p = due t0 t2 p.
Proof. intros H. unfold due. zbool. Qed.

Lemma due_empty t p : due t t p = false.
Proof. unfold due. zbool. Qed.

Section Facts.

Variable samples : nat -> Z.
Variable presses : list (Z * Button).

Lemma edge_split b t0 t1 t2 :
  t0 <= t1 <= t2 ->
  edge presses b t0 t1 || edge presses b t1 t2 = edge presses b t0 t2.
Proof.
  intros H. unfold edge. induction presses as [| p ps IH].
  - reflexivity.
  - cbn [existsb]. rewrite <- IH, <- (due_split t0 t1 t2 p H).
    destruct (due t0 t1 p), (due t1 t2 p), (Button_eqb (snd p) b),
      (existsb (fun q => due t0 t1 q && Button_eqb (snd q) b) ps); reflexivity.
Qed.

Lemma edge_empty b t : edge presses b t t = false.
Proof.
  unfold edge. induction presses as [| p ps IH]; cbn [existsb].
  - reflexivity.
  - rewrite due_empty, IH. reflexivity.
Qed.

(** The handlers touch nothing but their flag. *)
Lemma deliver_spec t0 t1 : forall w,
  deliver presses t0 t1 w =
  mkWorld (tare w) (lastUpdateTime w)
          (calibratePressed w || edge presses CalibrateButton t0 t1)
          (resetPressed w || edge presses ResetButton t0 t1)
          (now w) (nread w) (out w).
Proof.
  unfold deliver, edge. induction presses as [| p ps IH]; intros w.
  - destruct w. cbn. rewrite !orb_false_r. reflexivity.
  - cbn [fold_left existsb]. rewrite IH.
    destruct (due t0 t1 p); [| reflexivity].
    destruct p as [t [|]]; cbn;
      rewrite ?orb_true_r, ?orb_false_r; reflexivity.
Qed.

Lemma at_time_spec t w :
  at_time presses t w =
  mkWorld (tare w) (lastUpdateTime w)
          (calibratePressed w || edge presses CalibrateButton (now w) t)
          (resetPressed w || edge presses ResetButton (now w) t)
          t (nread w) (out w).
Proof. unfold at_time. rewrite deliver_spec. reflexivity. Qed.

Lemma at_time_now w : at_time presses (now w) w = w.
Proof.
  rewrite at_time_spec, !edge_empty, !orb_false_r. destruct w; reflexivity.
Qed.

Lemma at_time_trans t1 t2 w :
  now w <= t1 <= t2 ->
  at_time presses t2 (at_time presses t1 w) = at_time presses t2 w.
Proof.
  intros H. rewrite !at_time_spec. cbn.
  rewrite <- !orb_assoc, !edge_split by exact H. reflexivity.
Qed.

Lemma advance_spec dt w :
  advance presses dt w = Some (tt, at_time presses (now w + dt) w).
Proof. reflexivity. Qed.

(** ** The tare estimator and the weight *)

Lemma read_sum_spec n : forall sum w,
  read_sum samples n sum w =
  Some (wrapped_sum samples (nread w) n sum, set_nread (n + nread w) w).
Proof.
  induction n as [| n IH]; intros sum w.
  - destruct w; reflexivity.
  - cbn [read_sum wrapped_sum]. unfold bind, scale_read.
    rewrite IH. cbn. rewrite Nat.add_succ_r. reflexivity.
Qed.

Lemma tareScale_spec w :
  tareScale samples w =
  Some (tt, set_tare (Z.quot (wrapped_sum samples (nread w) 10 0) TARE_SAMPLES)
                     (set_nread (10 + nread w) w)).
Proof.
  unfold tareScale, bind. change (Z.to_nat TARE_SAMPLES) with 10%nat.
  rewrite read_sum_spec. reflexivity.
Qed.

Lemma getWeight_spec w :
  getWeight samples w =
  Some (weight_of (samples (nread w)) (tare w), set_nread (S (nread w)) w).
Proof. reflexivity. Qed.

End Facts.

(** ** The reset and the calibration *)

Section Actions.

Variable samples : nat -> Z.
Variable presses : list (Z * Button).

Lemma resetScale_spec w :
  resetScale samples presses w = Some (tt, reset_world samples presses w).
Proof.
  destruct w as [ta lu cp rp nw nr o]. unfold resetScale, reset_world, reset_out.
  repeat (exec; rewrite ?advance_spec, ?at_time_spec, ?tareScale_spec).
  rewrite <- !orb_assoc, !edge_split by lia.
  replace (nw + 2000 + 2000) with (nw + 4000) by lia.
  reflexivity.
Qed.

(** One poll of the busy wait. *)
Lemma wait_unfold k startTime w :
  wait_for_reset samples presses (S k) startTime w =
  if wrap_ulong (wrap_ulong (now w) - startTime) <? 5000 then
    if resetPressed w then
      Some (ResetTaken, set_resetPressed false (reset_world samples presses w))
    else wait_for_reset samples presses k startTime
           (at_time presses (now w + POLL_MS) w)
  else Some (TimedOut, w).
Proof.
  cbn [wait_for_reset]. unfold bind at 1. unfold millis, gets.
  destruct (wrap_ulong (wrap_ulong (now w) - startTime) <? 5000); [| reflexivity].
  unfold bind at 1.
  destruct (resetPressed w).
  - unfold bind, modify, ret. rewrite resetScale_spec. reflexivity.
  - unfold bind at 1. rewrite advance_spec. reflexivity.
Qed.

(** The busy wait, entered at most 5000 ms after its start at wall-clock
    time [t0]: either some poll before [t0 + 5000] is the first to read the
    reset flag set, and the reset runs from the world of that poll, or no
    poll does and the wait ends at [t0 + 5000]. *)
Lemma wait_spec t0 : forall fuel w,
  t0 <= now w <= t0 + 5000 ->
  (Z.to_nat (t0 + 5000 - now w) < fuel)%nat ->
  (exists tk,
      now w <= tk < t0 + 5000 /\
      reset_seen presses w tk = true /\
      (forall t, now w <= t < tk -> reset_seen presses w t = false) /\
      wait_for_reset samples presses fuel (wrap_ulong t0) w =
      Some (ResetTaken,
            set_resetPressed false
              (reset_world samples presses (at_time presses tk w))))
  \/ ((forall t, now w <= t < t0 + 5000 -> reset_seen presses w t = false) /\
      wait_for_reset samples presses fuel (wrap_ulong t0) w =
      Some (TimedOut, at_time presses (t0 + 5000) w)).
Proof.
  induction fuel as [| k IH]; intros w Hn Hf; [lia |].
  assert (He : wrap_ulong (wrap_ulong (now w) - wrap_ulong t0) = now w - t0).
  { replace (now w) with (t0 + (now w - t0)) at 1 by lia.
    apply elapsed_exact. lia. }
  rewrite wait_unfold, He. unfold POLL_MS.
  destruct (Z.ltb_spec (now w - t0) 5000) as [Hlt | Hge].
  - destruct (resetPressed w) eqn:Hrp.
    + left. exists (now w). unfold reset_seen. rewrite at_time_now.
      repeat split; try lia; assumption.
    + set (w1 := at_time presses (now w + 1) w).
      assert (Hn1 : now w1 = now w + 1)
        by (unfold w1; rewrite at_time_spec; reflexivity).
      assert (Hseen : forall t, now w + 1 <= t ->
                 reset_seen presses w1 t = reset_seen presses w t).
      { intros t Ht. unfold reset_seen, w1.
        rewrite at_time_trans by lia. reflexivity. }
      assert (Hfirst : forall t tk, now w <= t < tk ->
                 (forall u, now w1 <= u < tk -> reset_seen presses w1 u = false) ->
                 reset_seen presses w t = false).
      { intros t tk Ht Hb. destruct (Z.eq_dec t (now w)) as [-> | Hne].
        - unfold reset_seen. rewrite at_time_now. exact Hrp.
        - rewrite <- Hseen by lia. apply Hb. lia. }
      destruct (IH w1) as [[tk (Hk & Hs & Hb & Hw)] | [Hb Hw]]; try lia.
      * left. exists tk. rewrite Hn1 in Hk.
        repeat split; try lia.
        -- rewrite <- Hseen by lia. exact Hs.
        -- intros t Ht. apply (Hfirst t tk Ht Hb).
        -- rewrite Hw. unfold w1. rewrite at_time_trans by lia. reflexivity.
      * right. split.
        -- intros t Ht. apply (Hfirst t (t0 + 5000) Ht Hb).
        -- rewrite Hw. unfold w1. rewrite at_time_trans by lia. reflexivity.
  - right. split; [intros t Ht; lia |].
    replace (t0 + 5000) with (now w) by lia. rewrite at_time_now. reflexivity.
Qed.

Lemma reset_seen_prompted w t :
  reset_seen presses (prompted w) t = reset_seen presses w t.
Proof. unfold reset_seen. rewrite !at_time_spec. reflexivity. Qed.

(** [calibrateScale] always returns, in one of two ways: the first poll to
    read the reset flag set, at [tk], hands over to the reset; or no poll
    within the five seconds does and the calibration is carried out. *)
Lemma calibrateScale_spec w :
  (exists tk,
      now w <= tk < now w + 5000 /\
      reset_seen presses w tk = true /\
      (forall t, now w <= t < tk -> reset_seen presses w t = false) /\
      calibrateScale samples presses w =
      Some (tt, set_resetPressed false
                  (reset_world samples presses
                     (at_time presses tk (prompted w)))))
  \/ ((forall t, now w <= t < now w + 5000 -> reset_seen presses w t = false) /\
      calibrateScale samples presses w =
      Some (tt, calibrated_world samples presses w)).
Proof.
  assert (Hfuel : (Z.to_nat (now w + 5000 - now (prompted w)) < WAIT_FUEL)%nat).
  { change (now (prompted w)) with (now w). unfold WAIT_FUEL. lia. }
  assert (Hnow : now w <= now (prompted w) <= now w + 5000).
  { change (now (prompted w)) with (now w). lia. }
  pose proof (wait_spec (now w) WAIT_FUEL (prompted w) Hnow Hfuel) as H.
  clear Hfuel Hnow. unfold calibrateScale. revert H.
  generalize WAIT_FUEL. intros fuel H.
  assert (Hrun : forall k : WaitEnd -> M unit,
            (emit LcdClear ;; emit (LcdSetCursor 0 0) ;;
             emit (LcdPrint "Put 200g Weight") ;;
             startTime <- millis ;;
             e <- wait_for_reset samples presses fuel startTime ;; k e) w =
            (e <- wait_for_reset samples presses fuel (wrap_ulong (now w)) ;; k e)
              (prompted w)) by reflexivity.
  rewrite Hrun. clear Hrun.
  change (now (prompted w)) with (now w) in H.
  destruct H as [[tk (Hk & Hs & Hb & Hw)] | [Hb Hw]];
    rewrite (bind_Some _ _ _ _ _ Hw); cbv beta iota.
  - left. exists tk. rewrite reset_seen_prompted in Hs.
    split; [lia |]. split; [exact Hs |]. split; [| reflexivity].
    intros t Ht. rewrite <- reset_seen_prompted. apply Hb. exact Ht.
  - right. split.
    + intros t Ht. rewrite <- reset_seen_prompted. apply Hb. exact Ht.
    + unfold calibrated_world, calibrated_out, calibrated_tare, prompted.
      destruct w as [ta lu cp rp nw nr o].
      rewrite at_time_spec. change (Z.to_nat TARE_SAMPLES) with 10%nat.
      repeat (exec; rewrite ?read_sum_spec, ?advance_spec, ?at_time_spec).
      rewrite <- !orb_assoc, !edge_split by lia.
      replace (nw + 5000 + 2000) with (nw + 7000) by lia.
      reflexivity.
Qed.

Lemma calibrateScale_total w :
  calibrateScale samples presses w =
  Some (tt, world_of (calibrateScale samples presses w)).
Proof.
  destruct (calibrateScale_spec w) as [[tk (_ & _ & _ & H)] | [_ H]];
    rewrite H; reflexivity.
Qed.

Lemma updateDisplay_spec w :
  updateDisplay samples w = Some (tt, refreshed_world samples w).
Proof.
  destruct w as [ta lu cp rp nw nr o]. unfold updateDisplay.
  rewrite (bind_Some _ _ _ _ _ (getWeight_spec samples _)). reflexivity.
Qed.

Lemma loop_spec w :
  loop samples presses w = Some (tt, loop_world samples presses w).
Proof.
  unfold loop, loop_world, after_calibrate, refresh_due.
  unfold bind at 1. unfold millis at 1. unfold gets at 1.
  unfold bind at 1. unfold gets at 1.
  destruct (calibratePressed w).
  - unfold bind at 1. unfold bind at 1. rewrite calibrateScale_total.
    generalize (world_of (calibrateScale samples presses w)). intros wc.
    change (world_of (Some (tt, wc))) with wc.
    unfold modify at 1. unfold bind at 1. unfold gets at 1.
    change (resetPressed (set_calibratePressed false wc)) with (resetPressed wc).
    destruct (resetPressed wc).
    + unfold bind. rewrite resetScale_spec. reflexivity.
    + unfold bind at 1. unfold gets at 1.
      destruct (DISPLAY_UPDATE_INTERVAL <=? _); [| reflexivity].
      unfold bind. rewrite updateDisplay_spec. reflexivity.
  - unfold bind at 1. unfold ret at 1. unfold bind at 1. unfold gets at 1.
    destruct (resetPressed w).
    + unfold bind. rewrite resetScale_spec. reflexivity.
    + unfold bind at 1. unfold gets at 1.
      destruct (DISPLAY_UPDATE_INTERVAL <=? _); [| reflexivity].
      unfold bind. rewrite updateDisplay_spec. reflexivity.
Qed.

End Actions.

(** ** The weight computation *)

(** C1: for every raw reading [r = samples (nread w)] and tare [t = tare w],
    [getWeight] returns [(float)(r - t) * CALIBRATION_FACTOR * (-1)] in
    binary32 arithmetic; the factor is 100 / (16773520 - 16758735) up to
    rounding, and with tare 16773520 and raw reading 16758735 the result is
    the float 100.0. *)
Theorem getWeight_formula (samples : nat -> Z) (w : World) :
  getWeight samples w =
    Some (mul (mul (of_long (wrap_long (samples (nread w) - tare w)))
                   CALIBRATION_FACTOR)
              (of_long (-1)),
          set_nread (S (nread w)) w)
  /\ (Qabs (to_Q CALIBRATION_FACTOR - (100 # 14785)) < (1 # 1000000000))%Q
  /\ (to_Q (mul (mul (of_long (wrap_long (16758735 - 16773520)))
                     (div (of_literal 100) (of_long (16773520 - 16758735))))
                (of_long (-1))) == 100)%Q.
Proof.
  split; [apply getWeight_spec |].
  split; vm_compute; reflexivity.
Qed.

(** C8: [getWeight] writes neither [tare] nor [lastUpdateTime] nor a button
    flag (nor the clock, nor a display); it consumes one conversion, and its
    value is a function of that raw reading and the tare alone: any call, in
    any world, with the same raw reading and the same tare returns the same
    value. *)
Theorem getWeight_pure (samples : nat -> Z) (w : World) :
  exists x w',
    getWeight samples w = Some (x, w') /\
    tare w' = tare w /\
    lastUpdateTime w' = lastUpdateTime w /\
    calibratePressed w' = calibratePressed w /\
    resetPressed w' = resetPressed w /\
    now w' = now w /\
    out w' = out w /\
    forall samples2 w2,
      samples2 (nread w2) = samples (nread w) ->
      tare w2 = tare w ->
      option_map fst (getWeight samples2 w2) = Some x.
Proof.
  exists (weight_of (samples (nread w)) (tare w)), (set_nread (S (nread w)) w).
  rewrite getWeight_spec. repeat split.
  intros samples2 w2 Hr Ht. rewrite getWeight_spec, Hr, Ht. reflexivity.
Qed.

Lemma getWeight_pure_witness :
  option_map fst
    (getWeight (fun _ => 16758735)
       (mkWorld 16773520 0 false false 0 0 [])) =
  option_map fst
    (getWeight (fun n => if Nat.eqb n 7 then 16758735 else 0)
       (mkWorld 16773520 4000 true true 9000 7 [(0, LcdClear)])).
Proof.
  destruct (getWeight_pure (fun _ => 16758735)
              (mkWorld 16773520 0 false false 0 0 []))
    as (x & w' & Hx & _ & _ & _ & _ & _ & _ & Hsame).
  rewrite (Hsame (fun n => if Nat.eqb n 7 then 16758735 else 0)
                 (mkWorld 16773520 4000 true true 9000 7 [(0, LcdClear)])
                 eq_refl eq_refl).
  rewrite Hx. reflexivity.
Defined.

(** ** The calibration *)

(** C2 (the code departs from the claim): with a 200 g load on the cell the
    converter reads 16743950, that is [RAW_0G] less the 29570 counts of
    200 g.  A calibration from the fresh state then installs the tare
    [16743950 - 29570], and the next [getWeight] on the same reading returns
    the float -200.0, not 200.0. *)
Theorem calibrate_reports_negated_mass :
  exists w x w',
    calibrateScale (fun _ => 16743950) [] Scale_new = Some (tt, w) /\
    tare w = 16743950 - 29570 /\
    getWeight (fun _ => 16743950) w = Some (x, w') /\
    (to_Q x == - (200))%Q /\
    (to_Q (div KNOWN_WEIGHT CALIBRATION_FACTOR) == 29570)%Q.
Proof.
  eexists. eexists. eexists.
  split; [vm_compute; reflexivity |].
  split; [vm_compute; reflexivity |].
  split; [vm_compute; reflexivity |].
  split; vm_compute; reflexivity.
Qed.

Lemma reset_seen_spec presses w t :
  reset_seen presses w t =
  resetPressed w || edge presses ResetButton (now w) t.
Proof. unfold reset_seen. rewrite at_time_spec. reflexivity. Qed.

(** C3: if the reset flag is up when [calibrateScale] is entered, or a
    falling edge of the reset button raises it at a time [t] within the
    five seconds of the wait, then [calibrateScale] returns having done
    exactly what [resetScale(); resetPressed = false;] does from a world
    [wk] in which the tare is still the one it was entered with: the tare
    it leaves is the quotient of the ten readings by 10, never a
    calibration value, "Calibration Done" is not shown, the reset ran once
    and the reset flag is down. *)
Theorem calibrate_yields_to_reset (samples : nat -> Z)
    (presses : list (Z * Button)) (w : World) (t : Z) :
  now w <= t < now w + 5000 ->
  resetPressed w || edge presses ResetButton (now w) t = true ->
  exists wk w',
    tare wk = tare w /\
    nread wk = nread w /\
    (resetScale samples presses ;; modify (set_resetPressed false)) wk
      = Some (tt, w') /\
    calibrateScale samples presses w = Some (tt, w') /\
    tare w' = Z.quot (wrapped_sum samples (nread w) 10 0) TARE_SAMPLES /\
    resetPressed w' = false /\
    count_out is_calibrated w' = count_out is_calibrated w /\
    count_out is_reset w' = S (count_out is_reset w).
Proof.
  intros Ht Hseen. rewrite <- reset_seen_spec in Hseen.
  destruct (calibrateScale_spec samples presses w)
    as [[tk (Hk & Hs & Hb & Hw)] | [Hb Hw]].
  - exists (at_time presses tk (prompted w)).
    exists (set_resetPressed false
              (reset_world samples presses (at_time presses tk (prompted w)))).
    split; [rewrite at_time_spec; reflexivity |].
    split; [rewrite at_time_spec; reflexivity |].
    split; [rewrite (bind_Some _ _ _ _ _ (resetScale_spec samples presses _));
            reflexivity |].
    split; [exact Hw |].
    rewrite at_time_spec. repeat split.
  - rewrite (Hb t Ht) in Hseen. discriminate.
Qed.

Lemma calibrate_yields_to_reset_witness :
  exists wk w',
    tare wk = 123 /\
    nread wk = 0%nat /\
    (resetScale (fun _ => 16773520) [(2500, ResetButton)] ;;
     modify (set_resetPressed false)) wk = Some (tt, w') /\
    calibrateScale (fun _ => 16773520) [(2500, ResetButton)]
      (mkWorld 123 0 true false 1000 0 []) = Some (tt, w') /\
    tare w' = Z.quot (wrapped_sum (fun _ => 16773520) 0 10 0) TARE_SAMPLES /\
    resetPressed w' = false /\
    count_out is_calibrated w' = 0%nat /\
    count_out is_reset w' = 1%nat.
Proof.
  apply (calibrate_yields_to_reset (fun _ => 16773520) [(2500, ResetButton)]
           (mkWorld 123 0 true false 1000 0 []) 2500).
  - cbn. lia.
  - reflexivity.
Defined.

(** ** The tare estimator *)

(** C4, as the claim has it, fails: of the readings 16773521, 16773520, ...,
    16773520 the mean is 16773520.1, and the tare stored is 16773520. *)
Lemma tareScale_truncates :
  exists w',
    tareScale (fun n => if Nat.eqb n 0 then 16773521 else 16773520) Scale_new
      = Some (tt, w') /\
    tare w' = 16773520 /\
    ~ is_arithmetic_mean
        (readings (fun n => if Nat.eqb n 0 then 16773521 else 16773520) 0 10)
        (tare w').
Proof.
  eexists. split; [vm_compute; reflexivity |].
  split; [reflexivity |].
  unfold is_arithmetic_mean. vm_compute. discriminate.
Qed.

(** C4, amended: for every ten consecutive readings of the 24-bit converter
    [tareScale] stores the quotient of their sum by 10, truncated toward
    zero, which is less than one count away from their arithmetic mean; if
    every one of the readings is the same value [v] the tare is exactly
    [v]. *)
Theorem tareScale_truncated_mean (samples : nat -> Z) (w : World) :
  (forall k, (nread w <= k < nread w + 10)%nat -> hx711_range (samples k)) ->
  exists w',
    tareScale samples w = Some (tt, w') /\
    tare w' = Z.quot (total (readings samples (nread w) 10)) TARE_SAMPLES /\
    Z.abs (total (readings samples (nread w) 10) - TARE_SAMPLES * tare w')
      < TARE_SAMPLES /\
    forall v,
      (forall k, (nread w <= k < nread w + 10)%nat -> samples k = v) ->
      tare w' = v.
Proof.
  intros Hr. eexists. split; [apply tareScale_spec |].
  cbn [tare set_tare]. rewrite (wrapped_sum_hx711 samples (nread w) Hr).
  split; [reflexivity |]. split; [apply quot_near |].
  intros v Hv. rewrite (total_constant samples v 10 (nread w) Hv).
  apply quot_mean_exact.
Qed.

Lemma tareScale_truncated_mean_witness :
  exists w',
    tareScale (fun _ => 16773520) Scale_new = Some (tt, w') /\
    tare w' = Z.quot (total (readings (fun _ => 16773520) 0 10)) TARE_SAMPLES /\
    Z.abs (total (readings (fun _ => 16773520) 0 10) - TARE_SAMPLES * tare w')
      < TARE_SAMPLES /\
    forall v,
      (forall k, (0 <= k < 0 + 10)%nat -> 16773520 = v) ->
      tare w' = v.
Proof.
  apply (tareScale_truncated_mean (fun _ => 16773520) Scale_new).
  intros k Hk. unfold hx711_range. lia.
Defined.

(** ** The reset *)

Lemma weight_of_same v : weight_of v v = S754_zero true.
Proof. unfold weight_of. replace (v - v) with 0 by lia. vm_compute. reflexivity. Qed.

(** The two pauses of [resetScale] take the interrupts of their four
    seconds and leave the tare alone. *)
Lemma reset_pauses_spec presses w :
  reset_pauses presses w =
  Some (tt,
        mkWorld (tare w) (lastUpdateTime w)
          (calibratePressed w || edge presses CalibrateButton (now w) (now w + 4000))
          (resetPressed w || edge presses ResetButton (now w) (now w + 4000))
          (now w + 4000) (nread w)
          ((now w + 4000, LcdClear) :: (now w + 2000, LcdPrint "Reset Done") ::
           (now w + 2000, LcdSetCursor 0 0) :: (now w + 2000, LcdClear) ::
           out w)).
Proof.
  destruct w as [ta lu cp rp nw nr o]. unfold reset_pauses.
  repeat (exec; rewrite ?advance_spec, ?at_time_spec).
  rewrite <- !orb_assoc, !edge_split by lia.
  replace (nw + 2000 + 2000) with (nw + 4000) by lia.
  reflexivity.
Qed.

(** C5: [resetScale] is three steps in a row: it clears the tare
    ([reset_clears], which leaves a world [wz] with tare 0), pauses
    ([reset_pauses], through which the tare stays 0, up to the world [wm])
    and runs [tareScale] from [wm].  If the ten readings it takes and the
    no-load reading that follows all lie in [lo, hi], the new tare lies
    there too, so the next [getWeight] scales a count offset of at most
    [hi - lo]; if the readings are constant the tare is that constant and
    the weight reported is zero (the float -0.0). *)
Theorem reset_rezeroes (samples : nat -> Z) (presses : list (Z * Button))
    (w : World) (lo hi : Z) :
  hx711_range lo -> hx711_range hi ->
  (forall k, (nread w <= k <= nread w + 10)%nat -> lo <= samples k <= hi) ->
  resetScale samples presses =
    (reset_clears ;; reset_pauses presses ;; tareScale samples) /\
  exists wz wm w' x w'',
    reset_clears w = Some (tt, wz) /\
    tare wz = 0 /\
    reset_pauses presses wz = Some (tt, wm) /\
    tare wm = 0 /\
    tareScale samples wm = Some (tt, w') /\
    resetScale samples presses w = Some (tt, w') /\
    lo <= tare w' <= hi /\
    getWeight samples w' = Some (x, w'') /\
    x = mul (mul (of_long (wrap_long (samples (nread w') - tare w')))
                 CALIBRATION_FACTOR) (of_long (-1)) /\
    Z.abs (samples (nread w') - tare w') <= hi - lo /\
    (lo = hi -> tare w' = lo /\ (to_Q x == 0)%Q).
Proof.
  intros Hlo Hhi Hr.
  split.
  { unfold resetScale, reset_clears, reset_pauses.
    exec. unfold advance. exec. reflexivity. }
  assert (Hhx : forall k, (nread w <= k < nread w + 10)%nat ->
                  hx711_range (samples k)).
  { intros k Hk. unfold hx711_range in *.
    specialize (Hr k ltac:(lia)). lia. }
  assert (Hbetween : lo <= Z.quot (wrapped_sum samples (nread w) 10 0)
                                  TARE_SAMPLES <= hi).
  { rewrite (wrapped_sum_hx711 samples (nread w) Hhx).
    apply quot_between.
    pose proof (total_readings_bounds samples lo hi 10 (nread w)) as Hb.
    unfold TARE_SAMPLES. change (Z.of_nat 10) with 10 in Hb.
    apply Hb. intros k Hk. apply Hr. lia. }
  exists (mkWorld 0 (lastUpdateTime w) (calibratePressed w) (resetPressed w)
            (now w) (nread w)
            ((now w, LcdPrint "Resetting...") :: (now w, LcdSetCursor 0 0) ::
             (now w, TmClearDisplay) :: (now w, LcdClear) :: out w)).
  exists (mkWorld 0 (lastUpdateTime w)
            (calibratePressed w || edge presses CalibrateButton (now w) (now w + 4000))
            (resetPressed w || edge presses ResetButton (now w) (now w + 4000))
            (now w + 4000) (nread w) (reset_out (now w) (out w))).
  exists (reset_world samples presses w).
  exists (weight_of (samples (10 + nread w)%nat)
            (Z.quot (wrapped_sum samples (nread w) 10 0) TARE_SAMPLES)).
  exists (set_nread (S (10 + nread w)) (reset_world samples presses w)).
  split; [destruct w; reflexivity |].
  split; [reflexivity |].
  split; [rewrite reset_pauses_spec; reflexivity |].
  split; [reflexivity |].
  split; [rewrite tareScale_spec; reflexivity |].
  split; [apply resetScale_spec |].
  split; [exact Hbetween |].
  split; [rewrite getWeight_spec; reflexivity |].
  unfold weight_of. cbn [tare nread reset_world].
  split; [reflexivity |].
  assert (Hnext : lo <= samples (10 + nread w)%nat <= hi) by (apply Hr; lia).
  split; [lia |].
  intros E. subst hi.
  assert (Ht : Z.quot (wrapped_sum samples (nread w) 10 0) TARE_SAMPLES = lo) by lia.
  assert (Hs : samples (10 + nread w)%nat = lo) by lia.
  rewrite Ht, Hs. fold (weight_of lo lo). rewrite weight_of_same.
  split; reflexivity.
Qed.

Lemma reset_rezeroes_witness :
  (resetScale (fun k => if Nat.even k then 16773520 else 16773530) [] =
     (reset_clears ;; reset_pauses [] ;;
      tareScale (fun k => if Nat.even k then 16773520 else 16773530)) /\
   exists wz wm w' x w'',
     reset_clears (mkWorld 16714380 0 false true 0 0 []) = Some (tt, wz) /\
     tare wz = 0 /\
     reset_pauses [] wz = Some (tt, wm) /\
     tare wm = 0 /\
     tareScale (fun k => if Nat.even k then 16773520 else 16773530) wm
       = Some (tt, w') /\
     resetScale (fun k => if Nat.even k then 16773520 else 16773530) []
       (mkWorld 16714380 0 false true 0 0 []) = Some (tt, w') /\
     16773520 <= tare w' <= 16773530 /\
     getWeight (fun k => if Nat.even k then 16773520 else 16773530) w'
       = Some (x, w'') /\
     x = mul (mul (of_long (wrap_long
                     ((if Nat.even (nread w') then 16773520 else 16773530)
                      - tare w')))
                  CALIBRATION_FACTOR) (of_long (-1)) /\
     Z.abs ((if Nat.even (nread w') then 16773520 else 16773530) - tare w')
       <= 16773530 - 16773520 /\
     (16773520 = 16773530 -> tare w' = 16773520 /\ (to_Q x == 0)%Q)) /\
  (resetScale (fun _ => 16773520) [] =
     (reset_clears ;; reset_pauses [] ;; tareScale (fun _ => 16773520)) /\
   exists wz wm w' x w'',
     reset_clears (mkWorld 16714380 0 false true 0 0 []) = Some (tt, wz) /\
     tare wz = 0 /\
     reset_pauses [] wz = Some (tt, wm) /\
     tare wm = 0 /\
     tareScale (fun _ => 16773520) wm = Some (tt, w') /\
     resetScale (fun _ => 16773520) [] (mkWorld 16714380 0 false true 0 0 [])
       = Some (tt, w') /\
     16773520 <= tare w' <= 16773520 /\
     getWeight (fun _ => 16773520) w' = Some (x, w'') /\
     x = mul (mul (of_long (wrap_long (16773520 - tare w')))
                  CALIBRATION_FACTOR) (of_long (-1)) /\
     Z.abs (16773520 - tare w') <= 16773520 - 16773520 /\
     (16773520 = 16773520 -> tare w' = 16773520 /\ (to_Q x == 0)%Q)).
Proof.
  split.
  - apply (reset_rezeroes (fun k => if Nat.even k then 16773520 else 16773530)
             [] (mkWorld 16714380 0 false true 0 0 []) 16773520 16773530).
    + unfold hx711_range. lia.
    + unfold hx711_range. lia.
    + intros k Hk. destruct (Nat.even k); lia.
  - apply (reset_rezeroes (fun _ => 16773520) []
             (mkWorld 16714380 0 false true 0 0 []) 16773520 16773520).
    + unfold hx711_range. lia.
    + unfold hx711_range. lia.
    + intros k Hk. lia.
Defined.


(** ** One call of [loop] *)

Section Loop.

Variable samples : nat -> Z.
Variable presses : list (Z * Button).

Lemma count_reset_world f w :
  count_out f (reset_world samples presses w) =
  ((if f (LcdPrint "Resetting...") then 1 else 0)
   + (if f (LcdPrint "Reset Done") then 1 else 0)
   + (if f LcdClear then 3 else 0)
   + (if f (LcdSetCursor 0 0) then 2 else 0)
   + (if f TmClearDisplay then 1 else 0)
   + count_out f w)%nat.
Proof.
  unfold count_out, reset_world, reset_out. cbn [out filter snd].
  destruct (f (LcdPrint "Resetting...")), (f (LcdPrint "Reset Done")),
    (f LcdClear), (f (LcdSetCursor 0 0)), (f TmClearDisplay);
    cbn [List.length Nat.add]; lia.
Qed.

Lemma count_prompted f w :
  count_out f (prompted w) =
  ((if f (LcdPrint "Put 200g Weight") then 1 else 0)
   + (if f (LcdSetCursor 0 0) then 1 else 0)
   + (if f LcdClear then 1 else 0)
   + count_out f w)%nat.
Proof.
  unfold count_out, prompted. cbn [out set_out filter snd].
  destruct (f (LcdPrint "Put 200g Weight")), (f (LcdSetCursor 0 0)),
    (f LcdClear); cbn [List.length Nat.add]; lia.
Qed.

Lemma count_calibrated_world f w :
  count_out f (calibrated_world samples presses w) =
  ((if f (LcdPrint "Calibration Done") then 1 else 0)
   + (if f LcdClear then 2 else 0)
   + (if f (LcdSetCursor 0 0) then 1 else 0)
   + (if f TmClearDisplay then 1 else 0)
   + count_out f (prompted w))%nat.
Proof.
  unfold count_out, calibrated_world, calibrated_out. cbn [out filter snd].
  destruct (f (LcdPrint "Calibration Done")), (f LcdClear),
    (f (LcdSetCursor 0 0)), (f TmClearDisplay);
    cbn [List.length Nat.add]; lia.
Qed.


Lemma count_at_time f t w :
  count_out f (at_time presses t w) = count_out f w.
Proof. rewrite at_time_spec. reflexivity. Qed.

(** What a call of [calibrateScale] leaves of the things it does not own. *)
Lemma calibrate_frame w :
  let wc := world_of (calibrateScale samples presses w) in
  lastUpdateTime wc = lastUpdateTime w /\
  now w <= now wc /\
  count_out is_refresh wc = count_out is_refresh w /\
  ((count_out is_reset wc = S (count_out is_reset w) /\
    resetPressed wc = false /\
    exists t, now w <= t < now w + 5000 /\ reset_seen presses w t = true)
   \/ (count_out is_reset wc = count_out is_reset w /\
       forall t, now w <= t < now w + 5000 -> reset_seen presses w t = false)).
Proof.
  destruct (calibrateScale_spec samples presses w)
    as [[tk (Hk & Hs & Hb & Hw)] | [Hb Hw]]; rewrite Hw; cbn [world_of].
  - split; [rewrite at_time_spec; reflexivity |].
    split; [rewrite at_time_spec; cbn; lia |].
    split.
    + change (count_out is_refresh (reset_world samples presses
                (at_time presses tk (prompted w))) = count_out is_refresh w).
      rewrite count_reset_world, count_at_time, count_prompted. reflexivity.
    + left. split; [| split; [reflexivity |]].
      * change (count_out is_reset (reset_world samples presses
                  (at_time presses tk (prompted w))) = S (count_out is_reset w)).
        rewrite count_reset_world, count_at_time, count_prompted. reflexivity.
      * exists tk. split; [lia | exact Hs].
  - split; [reflexivity |].
    split; [cbn; lia |].
    split.
    + rewrite count_calibrated_world, count_prompted. reflexivity.
    + right. split; [| exact Hb].
      rewrite count_calibrated_world, count_prompted. reflexivity.
Qed.

Lemma reset_seen_now w : reset_seen presses w (now w) = resetPressed w.
Proof. unfold reset_seen. rewrite at_time_now. reflexivity. Qed.

(** What the first [if] of [loop] leaves: either a reset was taken inside
    the calibration, once, and the reset flag is down; or no reset ran. *)
Lemma after_calibrate_frame w :
  let w1 := after_calibrate samples presses w in
  lastUpdateTime w1 = lastUpdateTime w /\
  now w <= now w1 /\
  count_out is_refresh w1 = count_out is_refresh w /\
  ((calibratePressed w = true /\
    count_out is_reset w1 = S (count_out is_reset w) /\
    resetPressed w1 = false)
   \/ (count_out is_reset w1 = count_out is_reset w /\
       (calibratePressed w = true ->
        forall t, now w <= t < now w + 5000 -> reset_seen presses w t = false) /\
       (calibratePressed w = false -> w1 = w))).
Proof.
  unfold after_calibrate. destruct (calibratePressed w) eqn:Hcp.
  - destruct (calibrate_frame w) as (Hl & Hn & Hr & H).
    split; [exact Hl |]. split; [exact Hn |]. split; [exact Hr |].
    destruct H as [(Hc & Hf & _) | (Hc & Hb)].
    + left. repeat split; assumption.
    + right. split; [exact Hc |]. split; [intros _; exact Hb | discriminate].
  - split; [reflexivity |]. split; [lia |]. split; [reflexivity |].
    right. split; [reflexivity |]. split; [discriminate | reflexivity].
Qed.

(** The three ways the rest of [loop] can go. *)
Lemma loop_cases w :
  let w1 := after_calibrate samples presses w in
  let w' := loop_world samples presses w in
  (resetPressed w1 = true /\
   w' = set_resetPressed false (reset_world samples presses w1))
  \/ (resetPressed w1 = false /\
      refresh_due (wrap_ulong (now w)) w1 = true /\
      w' = set_lastUpdateTime (wrap_ulong (now w)) (refreshed_world samples w1))
  \/ (resetPressed w1 = false /\
      refresh_due (wrap_ulong (now w)) w1 = false /\
      w' = w1).
Proof.
  unfold loop_world. cbv zeta.
  destruct (resetPressed (after_calibrate samples presses w)).
  - left. split; reflexivity.
  - destruct (refresh_due _ _).
    + right. left. repeat split.
    + right. right. repeat split.
Qed.


(** What one call of [loop] does to the reset bookkeeping. *)
Lemma loop_reset w :
  let w1 := after_calibrate samples presses w in
  let w' := loop_world samples presses w in
  (count_out is_reset w' = S (count_out is_reset w) /\ resetPressed w' = false /\
   (count_out is_reset w1 = S (count_out is_reset w) \/ resetPressed w1 = true))
  \/ (count_out is_reset w' = count_out is_reset w /\
      count_out is_reset w1 = count_out is_reset w /\
      resetPressed w1 = false).
Proof.
  destruct (after_calibrate_frame w) as (_ & _ & _ & H).
  destruct (loop_cases w) as [(Hrp & Hw) | [(Hrp & Hd & Hw) | (Hrp & Hd & Hw)]];
    cbv zeta; rewrite Hw.
  - left. destruct H as [(_ & _ & Hf) | (Hc & _)].
    + rewrite Hf in Hrp. discriminate.
    + split; [| split; [reflexivity | right; exact Hrp]].
      change (count_out is_reset (reset_world samples presses
                (after_calibrate samples presses w)) = S (count_out is_reset w)).
      rewrite count_reset_world, Hc. reflexivity.
  - change (count_out is_reset (set_lastUpdateTime (wrap_ulong (now w))
              (refreshed_world samples (after_calibrate samples presses w))))
      with (count_out is_reset (after_calibrate samples presses w)).
    change (resetPressed (set_lastUpdateTime (wrap_ulong (now w))
              (refreshed_world samples (after_calibrate samples presses w))))
      with (resetPressed (after_calibrate samples presses w)).
    destruct H as [(_ & Hc & Hf) | (Hc & _)].
    + left. split; [exact Hc |]. split; [exact Hf | left; exact Hc].
    + right. split; [exact Hc |]. split; [exact Hc | exact Hrp].
  - destruct H as [(_ & Hc & Hf) | (Hc & _)].
    + left. split; [exact Hc |]. split; [exact Hf | left; exact Hc].
    + right. split; [exact Hc |]. split; [exact Hc | exact Hrp].
Qed.

End Loop.

(** ** The dispatch of [loop] *)

(** C6, as the claim has it, fails: the three tests are not one chain.
    Entered with the calibrate flag up and 1000 ms gone since the last
    refresh, one call of [loop] carries out the calibration and then also
    refreshes the display. *)
Lemma loop_calibrates_and_refreshes :
  exists w',
    loop (fun _ => 16743950) [] (mkWorld 0 0 true false 1000 0 [])
      = Some (tt, w') /\
    count_out is_calibrated w' = 1%nat /\
    count_out is_refresh w' = 1%nat /\
    loop (fun _ => 16743950) [] (mkWorld 0 0 true false 1000 0 []) <>
    (calibrateScale (fun _ => 16743950) [] ;;
     modify (set_calibratePressed false)) (mkWorld 0 0 true false 1000 0 []).
Proof.
  eexists. split; [vm_compute; reflexivity |].
  split; [vm_compute; reflexivity |].
  split; [vm_compute; reflexivity |].
  vm_compute. discriminate.
Qed.

(** C6, amended: a call of [loop] makes its tests one after the other.  If
    the calibrate flag is set it runs [calibrateScale] and clears the flag,
    reaching a world [w1] (otherwise [w1] is the world it was called in).
    Then, whichever way that went, if the reset flag is set in [w1] it runs
    [resetScale], clears the flag and returns; else, if the time read at
    the top of the call is at least 1000 ms past [lastUpdateTime], it runs
    [updateDisplay] and stores that time; else it does nothing more. *)
Theorem loop_dispatch (samples : nat -> Z) (presses : list (Z * Button))
    (w : World) :
  exists w1 w',
    (if calibratePressed w
     then (calibrateScale samples presses ;;
           modify (set_calibratePressed false)) w = Some (tt, w1)
     else w1 = w) /\
    (if resetPressed w1
     then (resetScale samples presses ;;
           modify (set_resetPressed false)) w1 = Some (tt, w')
     else if DISPLAY_UPDATE_INTERVAL
               <=? wrap_ulong (wrap_ulong (now w) - lastUpdateTime w1)
          then (updateDisplay samples ;;
                modify (set_lastUpdateTime (wrap_ulong (now w)))) w1
               = Some (tt, w')
          else w' = w1) /\
    loop samples presses w = Some (tt, w').
Proof.
  exists (after_calibrate samples presses w), (loop_world samples presses w).
  split; [| split; [| apply loop_spec]].
  - unfold after_calibrate. destruct (calibratePressed w); [| reflexivity].
    rewrite (bind_Some _ _ _ _ _ (calibrateScale_total samples presses w)).
    reflexivity.
  - fold (refresh_due (wrap_ulong (now w)) (after_calibrate samples presses w)).
    destruct (loop_cases samples presses w)
      as [(Hrp & Hw) | [(Hrp & Hd & Hw) | (Hrp & Hd & Hw)]];
      cbv zeta in Hw; rewrite Hrp, ?Hd, Hw.
    + rewrite (bind_Some _ _ _ _ _ (resetScale_spec samples presses _)).
      reflexivity.
    + rewrite (bind_Some _ _ _ _ _ (updateDisplay_spec samples _)).
      reflexivity.
    + reflexivity.
Qed.

(** C9: a call of [loop] entered with the calibrate flag up runs
    [calibrateScale], which returns in a world [wc] whether it completed or
    was cut short by a reset, and clears the flag there; when the call
    returns the flag is up exactly if a falling edge of the calibrate button
    came after [calibrateScale] had returned. *)
Theorem calibrate_flag_cleared (samples : nat -> Z)
    (presses : list (Z * Button)) (w : World) :
  calibratePressed w = true ->
  exists wc w',
    calibrateScale samples presses w = Some (tt, wc) /\
    (calibrateScale samples presses ;; modify (set_calibratePressed false) ;;
     gets calibratePressed) w = Some (false, set_calibratePressed false wc) /\
    loop samples presses w = Some (tt, w') /\
    now wc <= now w' /\
    calibratePressed w' = edge presses CalibrateButton (now wc) (now w').
Proof.
  intros Hcp.
  exists (world_of (calibrateScale samples presses w)),
         (loop_world samples presses w).
  split; [apply calibrateScale_total |].
  split; [rewrite (bind_Some _ _ _ _ _ (calibrateScale_total samples presses w));
          reflexivity |].
  split; [apply loop_spec |].
  assert (E : after_calibrate samples presses w =
              set_calibratePressed false
                (world_of (calibrateScale samples presses w)))
    by (unfold after_calibrate; rewrite Hcp; reflexivity).
  destruct (loop_cases samples presses w)
    as [(Hrp & Hw) | [(Hrp & Hd & Hw) | (Hrp & Hd & Hw)]];
    cbv zeta in Hw; rewrite Hw, E;
    generalize (world_of (calibrateScale samples presses w)); intros wc.
  - cbn. split; [lia | reflexivity].
  - cbn. split; [lia |]. rewrite edge_empty. reflexivity.
  - cbn. split; [lia |]. rewrite edge_empty. reflexivity.
Qed.

Lemma calibrate_flag_cleared_witness :
  exists wc w',
    calibrateScale (fun _ => 16743950) [(3000, ResetButton)]
      (mkWorld 0 0 true false 1000 0 []) = Some (tt, wc) /\
    (calibrateScale (fun _ => 16743950) [(3000, ResetButton)] ;;
     modify (set_calibratePressed false) ;;
     gets calibratePressed) (mkWorld 0 0 true false 1000 0 [])
      = Some (false, set_calibratePressed false wc) /\
    loop (fun _ => 16743950) [(3000, ResetButton)]
      (mkWorld 0 0 true false 1000 0 []) = Some (tt, w') /\
    now wc <= now w' /\
    calibratePressed w' =
      edge [(3000, ResetButton)] CalibrateButton (now wc) (now w').
Proof.
  apply (calibrate_flag_cleared (fun _ => 16743950) [(3000, ResetButton)]
           (mkWorld 0 0 true false 1000 0 [])).
  reflexivity.
Defined.

(** C10: in one call of [loop] the reset runs at most once, and whenever it
    ran the reset flag is down when the call returns, so that it takes a
    new falling edge for the reset to run again.  A request pending when
    the call begins is serviced in it.  When the flag is taken inside the
    wait of [calibrateScale] (the calibrate flag is up and the reset flag is
    up at entry or raised at a time [t] within the five seconds),
    [calibrateScale] returns with the flag down and [loop]'s own test does
    not run the reset again: it ran exactly once. *)
Theorem reset_serviced_once (samples : nat -> Z)
    (presses : list (Z * Button)) (w : World) :
  exists w',
    loop samples presses w = Some (tt, w') /\
    (count_out is_reset w' <= S (count_out is_reset w))%nat /\
    (count_out is_reset w' = S (count_out is_reset w) ->
     resetPressed w' = false) /\
    (resetPressed w = true ->
     count_out is_reset w' = S (count_out is_reset w)) /\
    (calibratePressed w = true ->
     forall t, now w <= t < now w + 5000 ->
       resetPressed w || edge presses ResetButton (now w) t = true ->
       resetPressed (world_of (calibrateScale samples presses w)) = false /\
       count_out is_reset w' = S (count_out is_reset w) /\
       resetPressed w' = false).
Proof.
  exists (loop_world samples presses w). split; [apply loop_spec |].
  pose proof (after_calibrate_frame samples presses w) as (_ & _ & _ & Hf).
  pose proof (loop_reset samples presses w) as Hl. cbv zeta in Hf, Hl.
  split; [| split; [| split]].
  - destruct Hl as [(Hc & _) | (Hc & _)]; lia.
  - intros Hc. destruct Hl as [(_ & Hr & _) | (Hc' & _)]; [exact Hr | lia].
  - intros Hrp. destruct Hl as [(Hc & _) | (_ & Hc1 & Hr1)]; [exact Hc |].
    destruct Hf as [(_ & Hc & _) | (_ & Hb & Hsame)]; [lia |].
    destruct (calibratePressed w) eqn:Hcp.
    + specialize (Hb eq_refl (now w) ltac:(lia)).
      rewrite reset_seen_now, Hrp in Hb. discriminate.
    + rewrite (Hsame eq_refl), Hrp in Hr1. discriminate.
  - intros Hcp t Ht Hseen. rewrite <- reset_seen_spec in Hseen.
    destruct Hf as [(_ & Hc & Hr) | (_ & Hb & _)].
    + split.
      * unfold after_calibrate in Hr. rewrite Hcp in Hr. exact Hr.
      * destruct Hl as [(Hc' & Hr' & _) | (Hc' & Hc1 & _)]; [| lia].
        split; assumption.
    + rewrite (Hb Hcp t Ht) in Hseen. discriminate.
Qed.

Lemma reset_serviced_once_witness :
  exists w',
    loop (fun _ => 16773520) [(3000, ResetButton)]
      (mkWorld 0 0 true false 1000 0 []) = Some (tt, w') /\
    count_out is_reset w' = 1%nat /\
    resetPressed w' = false.
Proof.
  destruct (reset_serviced_once (fun _ => 16773520) [(3000, ResetButton)]
              (mkWorld 0 0 true false 1000 0 []))
    as (w' & Hloop & _ & _ & _ & Habort).
  exists w'. split; [exact Hloop |].
  destruct (Habort eq_refl 3000) as (_ & Hc & Hr).
  - cbn. lia.
  - reflexivity.
  - split; [exact Hc | exact Hr].
Defined.

(** ** The refresh of the display *)




Lemma run_cons samples presses g gs w :
  run samples presses (g :: gs) w =
  run samples presses gs
    (loop_world samples presses (at_time presses (now w + g) w)).
Proof.
  cbn [run]. rewrite (bind_Some _ _ _ _ _ (advance_spec presses g w)).
  rewrite (bind_Some _ _ _ _ _ (loop_spec samples presses _)). reflexivity.
Qed.











(** * More of the sketch

    What follows covers the code between the places the claims cite:
    [setup], the interrupt handlers, the timing of the actions, how the
    actions follow one another in [loop], and the float arithmetic of
    [getWeight] and [calibrateScale]. *)

(** ** Start-up *)

Section Setup.

Variable samples : nat -> Z.
Variable presses : list (Z * Button).

Lemma setup_spec w :
  setup samples presses w = Some (tt, setup_world samples presses w).
Proof.
  destruct w as [ta lu cp rp nw nr o]. unfold setup, setup_world, setup_out.
  repeat (exec; rewrite ?advance_spec, ?at_time_spec, ?tareScale_spec).
  rewrite <- !orb_assoc, !edge_split by lia.
  replace (nw + 2000 + 2000) with (nw + 4000) by lia.
  reflexivity.
Qed.

(** The quotient of ten readings of the converter in [lo, hi] is computed
    without overflow and lies in [lo, hi]. *)
Lemma tare_between w lo hi :
  hx711_range lo -> hx711_range hi ->
  (forall k, (nread w <= k < nread w + 10)%nat -> lo <= samples k <= hi) ->
  Z.quot (wrapped_sum samples (nread w) 10 0) TARE_SAMPLES =
    Z.quot (total (readings samples (nread w) 10)) TARE_SAMPLES /\
  lo <= Z.quot (total (readings samples (nread w) 10)) TARE_SAMPLES <= hi.
Proof.
  intros Hlo Hhi Hr.
  assert (Hhx : forall k, (nread w <= k < nread w + 10)%nat ->
                  hx711_range (samples k)).
  { intros k Hk. unfold hx711_range in *. specialize (Hr k Hk). lia. }
  rewrite (wrapped_sum_hx711 samples (nread w) Hhx). split; [reflexivity |].
  apply quot_between.
  pose proof (total_readings_bounds samples lo hi 10 (nread w) Hr) as Hb.
  unfold TARE_SAMPLES. change (Z.of_nat 10) with 10 in Hb. exact Hb.
Qed.

Lemma elapsed_true L T :
  L <= T < L + 2 ^ 32 -> wrap_ulong (wrap_ulong T - wrap_ulong L) = T - L.
Proof.
  intros H. replace T with (L + (T - L)) at 1 by lia.
  apply elapsed_exact. lia.
Qed.

End Setup.

(** X1: [setup] takes exactly ten conversions and spends at least four
    seconds, the two pauses, whatever time the conversions take.  With those
    ten readings of the 24-bit converter in [lo, hi] it leaves as tare the
    truncated quotient of their sum by 10, which lies in [lo, hi], and it
    does not touch [lastUpdateTime]. *)
Theorem setup_tares (samples : nat -> Z) (presses : list (Z * Button))
    (w : World) (lo hi : Z) :
  hx711_range lo ->
  hx711_range hi ->
  (forall k, (nread w <= k < nread w + 10)%nat -> lo <= samples k <= hi) ->
  exists w',
    setup samples presses w = Some (tt, w') /\
    tare w' = Z.quot (total (readings samples (nread w) 10)) TARE_SAMPLES /\
    lo <= tare w' <= hi /\
    now w + 4000 <= now w' /\
    nread w' = (10 + nread w)%nat /\
    lastUpdateTime w' = lastUpdateTime w.
Proof.
  intros Hlo Hhi Hr. exists (setup_world samples presses w).
  split; [apply setup_spec |].
  destruct (tare_between samples w lo hi Hlo Hhi Hr) as (E & B).
  cbn [tare now nread lastUpdateTime setup_world]. rewrite E.
  split; [reflexivity |]. split; [exact B |]. split; [lia |].
  split; reflexivity.
Qed.

Lemma setup_tares_witness :
  exists w',
    setup (fun k : nat => if Nat.even k then 16773520 else 16773530) [(1000, ResetButton)] Scale_new = Some (tt, w') /\
    tare w' = Z.quot (total (readings (fun k : nat => if Nat.even k then 16773520 else 16773530) (nread Scale_new) 10)) TARE_SAMPLES /\
    16773520 <= tare w' <= 16773530 /\
    now Scale_new + 4000 <= now w' /\
    nread w' = (10 + nread Scale_new)%nat /\
    lastUpdateTime w' = lastUpdateTime Scale_new.
Proof.
  apply (setup_tares (fun k : nat => if Nat.even k then 16773520 else 16773530) [(1000, ResetButton)] Scale_new 16773520 16773530).
  - unfold hx711_range. lia.
  - unfold hx711_range. lia.
  - intros k Hk. destruct (Nat.even k); lia.
Defined.

(** X2: from the state of the constructor, [setup] followed by the first
    call of [loop], [g] milliseconds later and with no button pressed in
    the meantime, always refreshes the display: [lastUpdateTime] starts at 0
    and [setup] alone takes 4000 ms.  The weight shown is computed from the
    eleventh conversion against the tare of the first ten, and the count
    shown is the twelfth conversion. *)
Theorem first_loop_refreshes (samples : nat -> Z) (presses : list (Z * Button))
    (g : Z) :
  0 <= g ->
  4000 + g < 2 ^ 32 ->
  edge presses CalibrateButton 0 (4000 + g) = false ->
  edge presses ResetButton 0 (4000 + g) = false ->
  exists w',
    (setup samples presses ;; advance presses g ;; loop samples presses)
      Scale_new = Some (tt, w') /\
    refresh_times w' = [4000 + g] /\
    lastUpdateTime w' = 4000 + g /\
    tare w' = Z.quot (wrapped_sum samples 0 10 0) TARE_SAMPLES /\
    In (4000 + g,
        TmDisplayFloat
          (mul (mul (of_long (wrap_long (samples 10%nat - tare w')))
                    CALIBRATION_FACTOR) (of_long (-1))))
       (out w') /\
    In (4000 + g, LcdPrintLong (samples 11%nat)) (out w').
Proof.
  intros Hg Hmax Hc Hr.
  rewrite (bind_Some _ _ _ _ _ (setup_spec samples presses Scale_new)).
  rewrite (bind_Some _ _ _ _ _ (advance_spec presses g _)).
  rewrite loop_spec. eexists. split; [reflexivity |].
  assert (Hw : at_time presses (now (setup_world samples presses Scale_new) + g)
                 (setup_world samples presses Scale_new) =
               mkWorld (Z.quot (wrapped_sum samples 0 10 0) TARE_SAMPLES) 0
                       false false (4000 + g) 10 (setup_out 0 [])).
  { rewrite at_time_spec. cbn [setup_world Scale_new tare lastUpdateTime
      calibratePressed resetPressed now nread out orb].
    change (0 + 4000) with 4000.
    rewrite (edge_split presses CalibrateButton 0 4000 (4000 + g)) by lia.
    rewrite (edge_split presses ResetButton 0 4000 (4000 + g)) by lia.
    rewrite Hc, Hr. reflexivity. }
  rewrite Hw. unfold loop_world, after_calibrate, refresh_due.
  cbn [calibratePressed resetPressed lastUpdateTime now].
  rewrite Z.sub_0_r.
  assert (Hm1 : wrap_ulong (4000 + g) = 4000 + g).
  { unfold wrap_ulong, modulus. apply Z.mod_small. lia. }
  rewrite !Hm1. replace (DISPLAY_UPDATE_INTERVAL <=? 4000 + g) with true
    by (symmetry; apply Z.leb_le; unfold DISPLAY_UPDATE_INTERVAL; lia).
  unfold refreshed_world, refresh_out, setup_out, weight_of.
  cbn [tare lastUpdateTime now nread out set_lastUpdateTime].
  split; [reflexivity |]. split; [reflexivity |]. split; [reflexivity |].
  split; cbn [In]; tauto.
Qed.

Lemma first_loop_refreshes_witness :
  exists w',
    (setup (fun _ : nat => 16773520) [(9000, ResetButton)] ;; advance [(9000, ResetButton)] 25 ;; loop (fun _ : nat => 16773520) [(9000, ResetButton)])
      Scale_new = Some (tt, w') /\
    refresh_times w' = [4000 + 25] /\
    lastUpdateTime w' = 4000 + 25 /\
    tare w' = Z.quot (wrapped_sum (fun _ : nat => 16773520) 0 10 0) TARE_SAMPLES /\
    In (4000 + 25,
        TmDisplayFloat
          (mul (mul (of_long (wrap_long ((fun _ : nat => 16773520) 10%nat - tare w')))
                    CALIBRATION_FACTOR) (of_long (-1))))
       (out w') /\
    In (4000 + 25, LcdPrintLong ((fun _ : nat => 16773520) 11%nat)) (out w').
Proof.
  apply (first_loop_refreshes (fun _ : nat => 16773520) [(9000, ResetButton)] 25).
  - lia.
  - lia.
  - reflexivity.
  - reflexivity.
Defined.


(** ** The interrupt handlers *)

(** X3: the handlers only raise a flag, so presses are not queued.  Over any
    stretch of time, two schedules of falling edges that agree on whether
    each button was pressed at all leave the same world, however many
    presses each has and in whatever order. *)
Theorem interrupts_coalesce (ps1 ps2 : list (Z * Button)) (t0 t1 : Z) (w : World) :
  (forall b, edge ps1 b t0 t1 = edge ps2 b t0 t1) ->
  deliver ps1 t0 t1 w = deliver ps2 t0 t1 w.
Proof.
  intros H. rewrite !deliver_spec, !H. reflexivity.
Qed.

Lemma interrupts_coalesce_witness :
  deliver [(5, ResetButton); (7, ResetButton); (6, CalibrateButton); (9, ResetButton)] 0 10 Scale_new = deliver [(6, CalibrateButton); (5, ResetButton)] 0 10 Scale_new.
Proof.
  apply (interrupts_coalesce [(5, ResetButton); (7, ResetButton); (6, CalibrateButton); (9, ResetButton)] [(6, CalibrateButton); (5, ResetButton)] 0 10 Scale_new).
  - intros [|]; reflexivity.
Defined.


(** ** The clock *)

(** X5: the test of the refresh is exact across the wrap-around of
    [millis()].  If [lastUpdateTime] was read at wall-clock time [L] and
    less than 2^32 ms have passed since, a call of [loop] with neither flag
    up refreshes the display exactly when at least 1000 ms have really
    passed, whatever the two readings of [millis()] are; [lastUpdateTime]
    then becomes the time read at the top of the call, and the tare is
    left as it was. *)
Theorem rate_limit_across_wrap (samples : nat -> Z) (presses : list (Z * Button))
    (w : World) (L : Z) :
  L <= now w < L + 2 ^ 32 ->
  lastUpdateTime w = wrap_ulong L ->
  calibratePressed w = false ->
  resetPressed w = false ->
  exists w',
    loop samples presses w = Some (tt, w') /\
    count_out is_refresh w' =
      (if DISPLAY_UPDATE_INTERVAL <=? now w - L
       then S (count_out is_refresh w) else count_out is_refresh w) /\
    lastUpdateTime w' =
      (if DISPLAY_UPDATE_INTERVAL <=? now w - L
       then wrap_ulong (now w) else wrap_ulong L) /\
    tare w' = tare w.
Proof.
  intros HT HL Hcp Hrp. exists (loop_world samples presses w).
  split; [apply loop_spec |].
  unfold loop_world, after_calibrate, refresh_due. rewrite Hcp. cbv zeta.
  rewrite Hrp, HL, elapsed_true by exact HT.
  destruct (DISPLAY_UPDATE_INTERVAL <=? now w - L).
  - repeat split.
  - repeat split. exact HL.
Qed.

Lemma rate_limit_across_wrap_witness :
  exists w',
    loop (fun _ : nat => 16773520) [] (mkWorld 16773520 4294966796 false false 4294967896 0 []) = Some (tt, w') /\
    count_out is_refresh w' =
      (if DISPLAY_UPDATE_INTERVAL <=? now (mkWorld 16773520 4294966796 false false 4294967896 0 []) - 4294966796
       then S (count_out is_refresh (mkWorld 16773520 4294966796 false false 4294967896 0 [])) else count_out is_refresh (mkWorld 16773520 4294966796 false false 4294967896 0 [])) /\
    lastUpdateTime w' =
      (if DISPLAY_UPDATE_INTERVAL <=? now (mkWorld 16773520 4294966796 false false 4294967896 0 []) - 4294966796
       then wrap_ulong (now (mkWorld 16773520 4294966796 false false 4294967896 0 [])) else wrap_ulong 4294966796) /\
    tare w' = tare (mkWorld 16773520 4294966796 false false 4294967896 0 []).
Proof.
  apply (rate_limit_across_wrap (fun _ : nat => 16773520) [] (mkWorld 16773520 4294966796 false false 4294967896 0 []) 4294966796).
  - cbn. lia.
  - reflexivity.
  - reflexivity.
  - reflexivity.
Defined.


(** ** How the actions follow one another *)

Section Sequencing.

Variable samples : nat -> Z.
Variable presses : list (Z * Button).

Lemma edge_later b t0 t1 t2 :
  t0 <= t1 <= t2 ->
  edge presses b t0 t2 = false -> edge presses b t0 t1 = false.
Proof.
  intros H E. rewrite <- (edge_split presses b t0 t1 t2 H) in E.
  apply orb_false_iff in E. apply E.
Qed.

Lemma reset_seen_set_tare t w u :
  reset_seen presses (set_tare t w) u = reset_seen presses w u.
Proof. rewrite !reset_seen_spec. reflexivity. Qed.

(** How long a call of [calibrateScale] lasts. *)
Lemma calibrate_duration w :
  let wc := world_of (calibrateScale samples presses w) in
  (now w + 4000 <= now wc < now w + 9000 /\ resetPressed wc = false /\
   nread wc = (10 + nread w)%nat)
  \/ (now wc = now w + 7000 /\ nread wc = (10 + nread w)%nat).
Proof.
  destruct (calibrateScale_spec samples presses w)
    as [[tk (Hk & Hs & Hb & Hw)] | [Hb Hw]]; rewrite Hw; cbn [world_of].
  - left. rewrite at_time_spec. cbn. repeat split; lia.
  - right. repeat split.
Qed.

Lemma no_reset_seen w :
  resetPressed w = false ->
  edge presses ResetButton (now w) (now w + 4999) = false ->
  forall t, now w <= t < now w + 5000 -> reset_seen presses w t = false.
Proof.
  intros Hrp He t Ht. rewrite reset_seen_spec, Hrp.
  apply (edge_later ResetButton (now w) t (now w + 4999)); [lia | exact He].
Qed.

(** With no reset in sight the calibration is carried out. *)
Lemma calibrate_completes w :
  resetPressed w = false ->
  edge presses ResetButton (now w) (now w + 4999) = false ->
  calibrateScale samples presses w = Some (tt, calibrated_world samples presses w).
Proof.
  intros Hrp He.
  destruct (calibrateScale_spec samples presses w)
    as [[tk (Hk & Hs & Hb & Hw)] | [Hb Hw]]; [| exact Hw].
  rewrite (no_reset_seen w Hrp He tk) in Hs by lia. discriminate.
Qed.

Lemma calibrate_prompts w :
  count_out is_prompt (world_of (calibrateScale samples presses w)) =
  S (count_out is_prompt w).
Proof.
  destruct (calibrateScale_spec samples presses w)
    as [[tk (Hk & Hs & Hb & Hw)] | [Hb Hw]]; rewrite Hw; cbn [world_of].
  - change (count_out is_prompt (reset_world samples presses
              (at_time presses tk (prompted w))) = S (count_out is_prompt w)).
    rewrite count_reset_world, count_at_time, count_prompted. reflexivity.
  - rewrite count_calibrated_world, count_prompted. reflexivity.
Qed.

(** A call of [loop] shows the prompt exactly when it is entered with the
    calibrate flag up. *)
Lemma loop_prompts w :
  count_out is_prompt (loop_world samples presses w) =
  if calibratePressed w then S (count_out is_prompt w)
  else count_out is_prompt w.
Proof.
  assert (H1 : count_out is_prompt (after_calibrate samples presses w) =
               if calibratePressed w then S (count_out is_prompt w)
               else count_out is_prompt w).
  { unfold after_calibrate. destruct (calibratePressed w); [| reflexivity].
    change (count_out is_prompt (set_calibratePressed false ?x))
      with (count_out is_prompt x).
    apply calibrate_prompts. }
  rewrite <- H1. unfold loop_world. cbv zeta.
  generalize (after_calibrate samples presses w). intros w1.
  destruct (resetPressed w1); [| destruct (refresh_due _ _)].
  - change (count_out is_prompt (reset_world samples presses w1)
            = count_out is_prompt w1).
    rewrite count_reset_world. reflexivity.
  - reflexivity.
  - reflexivity.
Qed.

End Sequencing.

(** X4: [resetScale], [calibrateScale] and [setup] overwrite the tare with a
    value that depends on the readings they take alone: whatever the tare
    was when they are entered, they return the same result in the same
    world.  A calibration does not build on the one before it, and a reset
    keeps nothing of it. *)
Theorem tare_overwritten (samples : nat -> Z) (presses : list (Z * Button))
    (w : World) (t : Z) :
  resetScale samples presses (set_tare t w) = resetScale samples presses w /\
  calibrateScale samples presses (set_tare t w)
    = calibrateScale samples presses w /\
  setup samples presses (set_tare t w) = setup samples presses w.
Proof.
  split; [rewrite !resetScale_spec; reflexivity |].
  split; [| rewrite !setup_spec; reflexivity].
  destruct (calibrateScale_spec samples presses w)
    as [[tk (Hk & Hs & Hb & Hw)] | [Hb Hw]];
  destruct (calibrateScale_spec samples presses (set_tare t w))
    as [[tk2 (Hk2 & Hs2 & Hb2 & Hw2)] | [Hb2 Hw2]];
  change (now (set_tare t w)) with (now w) in *;
  rewrite Hw, Hw2.
  - assert (tk2 = tk).
    { destruct (Z.lt_trichotomy tk2 tk) as [H | [H | H]]; [| exact H |].
      - rewrite reset_seen_set_tare in Hs2. rewrite (Hb tk2) in Hs2 by lia.
        discriminate.
      - rewrite <- (reset_seen_set_tare presses t) in Hs.
        rewrite (Hb2 tk) in Hs by lia. discriminate. }
    subst tk2. rewrite !at_time_spec. reflexivity.
  - rewrite <- (reset_seen_set_tare presses t) in Hs.
    rewrite (Hb2 tk) in Hs by lia. discriminate.
  - rewrite reset_seen_set_tare in Hs2. rewrite (Hb tk2) in Hs2 by lia.
    discriminate.
  - reflexivity.
Qed.

(** X6: a call of [loop] spends at most 11 seconds in its delays and its wait
    (a calibration of 7 s followed by a reset of 4 s) and takes at most 20
    conversions.  Entered with the calibrate flag up it spends at least
    4 s; otherwise it spends exactly 4 s if the reset flag is up and no
    time at all if it is not. *)
Theorem loop_duration (samples : nat -> Z) (presses : list (Z * Button))
    (w : World) :
  exists w',
    loop samples presses w = Some (tt, w') /\
    now w <= now w' <= now w + 11000 /\
    (nread w <= nread w' <= 20 + nread w)%nat /\
    (if calibratePressed w then now w + 4000 <= now w'
     else now w' = now w + (if resetPressed w then 4000 else 0)).
Proof.
  exists (loop_world samples presses w). split; [apply loop_spec |].
  unfold loop_world, after_calibrate.
  destruct (calibratePressed w) eqn:Hcp.
  - pose proof (calibrate_duration samples presses w) as Hd. cbv zeta in Hd.
    revert Hd. generalize (world_of (calibrateScale samples presses w)).
    intros wc Hd. cbv zeta.
    change (resetPressed (set_calibratePressed false wc)) with (resetPressed wc).
    destruct Hd as [(Hn & Hr & Hnr) | (Hn & Hnr)].
    + rewrite Hr. destruct (refresh_due _ _); cbn; repeat split; lia.
    + destruct (resetPressed wc); [| destruct (refresh_due _ _)];
        cbn; repeat split; lia.
  - cbv zeta. destruct (resetPressed w) eqn:Hrp; [| destruct (refresh_due _ _)];
      cbn; repeat split; lia.
Qed.

(** X7: over any run in which no button is ever pressed, entered with both
    flags down, the tare never changes, no reset and no calibration ever
    start, both flags stay down, and the calls of [loop] take no time of
    their own: the clock ends at the sum of the gaps. *)
Theorem quiet_run (samples : nat -> Z) (gaps : list Z) (w : World) :
  calibratePressed w = false ->
  resetPressed w = false ->
  exists w',
    run samples [] gaps w = Some (tt, w') /\
    tare w' = tare w /\
    calibratePressed w' = false /\ resetPressed w' = false /\
    now w' = now w + total gaps /\
    count_out is_reset w' = count_out is_reset w /\
    count_out is_prompt w' = count_out is_prompt w.
Proof.
  revert w. induction gaps as [| g gs IH]; intros w Hcp Hrp.
  - exists w. cbn. repeat split; try assumption. lia.
  - rewrite run_cons.
    set (w0 := at_time [] (now w + g) w).
    assert (H0 : tare w0 = tare w /\ calibratePressed w0 = false /\
                 resetPressed w0 = false /\ now w0 = now w + g /\
                 count_out is_reset w0 = count_out is_reset w /\
                 count_out is_prompt w0 = count_out is_prompt w).
    { unfold w0. rewrite at_time_spec. cbn. rewrite Hcp, Hrp. repeat split. }
    destruct H0 as (Ht & Hc0 & Hr0 & Hn & Hcr & Hcq).
    assert (H1 : tare (loop_world samples [] w0) = tare w0 /\
                 calibratePressed (loop_world samples [] w0) = false /\
                 resetPressed (loop_world samples [] w0) = false /\
                 now (loop_world samples [] w0) = now w0 /\
                 count_out is_reset (loop_world samples [] w0)
                   = count_out is_reset w0 /\
                 count_out is_prompt (loop_world samples [] w0)
                   = count_out is_prompt w0).
    { unfold loop_world, after_calibrate. rewrite Hc0. cbv zeta. rewrite Hr0.
      destruct (refresh_due _ _); cbn; repeat split; assumption. }
    destruct H1 as (Ht1 & Hc1 & Hr1 & Hn1 & Hcr1 & Hcq1).
    destruct (IH (loop_world samples [] w0) Hc1 Hr1)
      as (w' & Hrun & Ht' & Hc' & Hr' & Hn' & Hcr' & Hcq').
    exists w'. split; [exact Hrun |].
    cbn [total fold_right]. fold (total gs).
    repeat split; try assumption; try congruence. lia.
Qed.

Lemma quiet_run_witness :
  exists w',
    run (fun _ : nat => 16773520) [] [1000; 300; 700; 2000] (mkWorld 16773520 0 false false 4000 10 []) = Some (tt, w') /\
    tare w' = tare (mkWorld 16773520 0 false false 4000 10 []) /\
    calibratePressed w' = false /\ resetPressed w' = false /\
    now w' = now (mkWorld 16773520 0 false false 4000 10 []) + total [1000; 300; 700; 2000] /\
    count_out is_reset w' = count_out is_reset (mkWorld 16773520 0 false false 4000 10 []) /\
    count_out is_prompt w' = count_out is_prompt (mkWorld 16773520 0 false false 4000 10 []).
Proof.
  apply (quiet_run (fun _ : nat => 16773520) [1000; 300; 700; 2000] (mkWorld 16773520 0 false false 4000 10 [])).
  - reflexivity.
  - reflexivity.
Defined.

(** X8: a reset button pressed too late for the wait of a calibration to
    see it does not wait for the next call of [loop].  If the reset flag is
    up when the [calibrateScale] of a call of [loop] returns, that
    calibration was carried out in full ("Calibration Done" was shown), and
    the same call runs the reset straight after it, without refreshing the
    display.  The tare it leaves is the reset's, taken from the ten
    conversions that follow those of the calibration; the pauses of the two
    actions alone keep the call for 11 s or more. *)
Theorem reset_after_calibration (samples : nat -> Z) (presses : list (Z * Button))
    (w : World) :
  calibratePressed w = true ->
  resetPressed (world_of (calibrateScale samples presses w)) = true ->
  exists w',
    loop samples presses w = Some (tt, w') /\
    count_out is_calibrated w' = S (count_out is_calibrated w) /\
    count_out is_reset w' = S (count_out is_reset w) /\
    count_out is_refresh w' = count_out is_refresh w /\
    tare w' = Z.quot (wrapped_sum samples (10 + nread w) 10 0) TARE_SAMPLES /\
    now w + 11000 <= now w' /\
    resetPressed w' = false.
Proof.
  intros Hcp Hr. exists (loop_world samples presses w).
  split; [apply loop_spec |].
  unfold loop_world, after_calibrate. rewrite Hcp.
  destruct (calibrateScale_spec samples presses w)
    as [[tk (Hk & Hs & Hb & Hw)] | [Hb Hw]];
    rewrite Hw in Hr |- *; cbn [world_of] in Hr |- *; [discriminate Hr |].
  cbv zeta.
  change (resetPressed (set_calibratePressed false
            (calibrated_world samples presses w)))
    with (resetPressed (calibrated_world samples presses w)).
  rewrite Hr.
  split.
  { change (count_out is_calibrated (reset_world samples presses
              (set_calibratePressed false (calibrated_world samples presses w)))
            = S (count_out is_calibrated w)).
    rewrite count_reset_world.
    change (count_out is_calibrated (set_calibratePressed false
              (calibrated_world samples presses w)))
      with (count_out is_calibrated (calibrated_world samples presses w)).
    rewrite count_calibrated_world, count_prompted. reflexivity. }
  split.
  { change (count_out is_reset (reset_world samples presses
              (set_calibratePressed false (calibrated_world samples presses w)))
            = S (count_out is_reset w)).
    rewrite count_reset_world.
    change (count_out is_reset (set_calibratePressed false
              (calibrated_world samples presses w)))
      with (count_out is_reset (calibrated_world samples presses w)).
    rewrite count_calibrated_world, count_prompted. reflexivity. }
  split.
  { change (count_out is_refresh (reset_world samples presses
              (set_calibratePressed false (calibrated_world samples presses w)))
            = count_out is_refresh w).
    rewrite count_reset_world.
    change (count_out is_refresh (set_calibratePressed false
              (calibrated_world samples presses w)))
      with (count_out is_refresh (calibrated_world samples presses w)).
    rewrite count_calibrated_world, count_prompted. reflexivity. }
  split; [reflexivity |]. split; [cbn; lia | reflexivity].
Qed.

Lemma reset_after_calibration_witness :
  exists w',
    loop (fun _ : nat => 16773520) [(7500, ResetButton)] (mkWorld 0 0 true false 1000 0 []) = Some (tt, w') /\
    count_out is_calibrated w' = S (count_out is_calibrated (mkWorld 0 0 true false 1000 0 [])) /\
    count_out is_reset w' = S (count_out is_reset (mkWorld 0 0 true false 1000 0 [])) /\
    count_out is_refresh w' = count_out is_refresh (mkWorld 0 0 true false 1000 0 []) /\
    tare w' = Z.quot (wrapped_sum (fun _ : nat => 16773520) (10 + nread (mkWorld 0 0 true false 1000 0 [])) 10 0) TARE_SAMPLES /\
    now (mkWorld 0 0 true false 1000 0 []) + 11000 <= now w' /\
    resetPressed w' = false.
Proof.
  apply (reset_after_calibration (fun _ : nat => 16773520) [(7500, ResetButton)] (mkWorld 0 0 true false 1000 0 [])).
  - reflexivity.
  - vm_compute. reflexivity.
Defined.

(** X9: the calibrate button pressed while a reset is running is not lost.
    A call of [loop] that runs the reset from its own test returns with the
    calibrate flag up and the reset flag down, without having shown the
    calibration prompt; the next call of [loop], whenever it comes, shows
    the prompt and so starts the calibration. *)
Theorem calibrate_request_survives_reset (samples : nat -> Z)
    (presses : list (Z * Button)) (w : World) (g : Z) :
  calibratePressed w = false ->
  resetPressed w = true ->
  edge presses CalibrateButton (now w) (now w + 4000) = true ->
  exists w1 w2,
    loop samples presses w = Some (tt, w1) /\
    calibratePressed w1 = true /\ resetPressed w1 = false /\
    count_out is_prompt w1 = count_out is_prompt w /\
    (advance presses g ;; loop samples presses) w1 = Some (tt, w2) /\
    count_out is_prompt w2 = S (count_out is_prompt w).
Proof.
  intros Hcp Hrp He.
  exists (loop_world samples presses w).
  exists (loop_world samples presses
            (at_time presses (now (loop_world samples presses w) + g)
               (loop_world samples presses w))).
  split; [apply loop_spec |].
  assert (Hw1 : loop_world samples presses w =
                set_resetPressed false (reset_world samples presses w)).
  { unfold loop_world, after_calibrate. rewrite Hcp. cbv zeta. rewrite Hrp.
    reflexivity. }
  assert (Hc1 : calibratePressed (loop_world samples presses w) = true).
  { rewrite Hw1. cbn. rewrite Hcp, He. reflexivity. }
  split; [exact Hc1 |].
  split; [rewrite Hw1; reflexivity |].
  assert (Hp1 : count_out is_prompt (loop_world samples presses w) =
                count_out is_prompt w)
    by (rewrite loop_prompts, Hcp; reflexivity).
  split; [exact Hp1 |].
  split.
  { rewrite (bind_Some _ _ _ _ _ (advance_spec presses g _)). apply loop_spec. }
  rewrite loop_prompts.
  replace (calibratePressed
             (at_time presses (now (loop_world samples presses w) + g)
                (loop_world samples presses w))) with true
    by (rewrite at_time_spec; cbn; rewrite Hc1; reflexivity).
  rewrite count_at_time, Hp1. reflexivity.
Qed.

Lemma calibrate_request_survives_reset_witness :
  exists w1 w2,
    loop (fun _ : nat => 16773520) [(3000, CalibrateButton)] (mkWorld 0 0 false true 1000 0 []) = Some (tt, w1) /\
    calibratePressed w1 = true /\ resetPressed w1 = false /\
    count_out is_prompt w1 = count_out is_prompt (mkWorld 0 0 false true 1000 0 []) /\
    (advance [(3000, CalibrateButton)] 1 ;; loop (fun _ : nat => 16773520) [(3000, CalibrateButton)]) w1 = Some (tt, w2) /\
    count_out is_prompt w2 = S (count_out is_prompt (mkWorld 0 0 false true 1000 0 [])).
Proof.
  apply (calibrate_request_survives_reset (fun _ : nat => 16773520) [(3000, CalibrateButton)] (mkWorld 0 0 false true 1000 0 []) 1).
  - reflexivity.
  - reflexivity.
  - reflexivity.
Defined.




Section Abort.

Variable samples : nat -> Z.
Variable presses : list (Z * Button).

(** The poll at which the wait of [calibrateScale] gives way is the first
    one to read the reset flag set. *)
Lemma calibrate_aborts_at w t :
  now w <= t < now w + 5000 ->
  reset_seen presses w t = true ->
  (forall u, now w <= u < t -> reset_seen presses w u = false) ->
  calibrateScale samples presses w =
  Some (tt, set_resetPressed false
              (reset_world samples presses (at_time presses t (prompted w)))).
Proof.
  intros Ht Hs Hb.
  destruct (calibrateScale_spec samples presses w)
    as [[tk (Hk & Hs' & Hb' & Hw)] | [Hb' Hw]].
  - assert (tk = t).
    { destruct (Z.lt_trichotomy tk t) as [H | [H | H]]; [| exact H |].
      - rewrite (Hb tk) in Hs' by lia. discriminate.
      - rewrite (Hb' t) in Hs by lia. discriminate. }
    subst tk. exact Hw.
  - rewrite (Hb' t Ht) in Hs. discriminate.
Qed.

End Abort.

(** X16: a reset button pressed at the millisecond [t] of the five-second
    wait, the first press since [calibrateScale] was entered, is taken up in
    that very millisecond: "Resetting..." is shown at [t], and
    [calibrateScale] returns after the two pauses of the reset, at
    [t + 4000] at the earliest, with the reset flag down, having taken the
    ten conversions of the reset; the tare is their truncated quotient. *)
Theorem reset_during_wait_is_prompt (samples : nat -> Z)
    (presses : list (Z * Button)) (w : World) (t : Z) :
  now w < t < now w + 5000 ->
  resetPressed w = false ->
  edge presses ResetButton (now w) (t - 1) = false ->
  edge presses ResetButton (now w) t = true ->
  exists w',
    calibrateScale samples presses w = Some (tt, w') /\
    In (t, LcdPrint "Resetting...") (out w') /\
    t + 4000 <= now w' /\
    nread w' = (10 + nread w)%nat /\
    tare w' = Z.quot (wrapped_sum samples (nread w) 10 0) TARE_SAMPLES /\
    resetPressed w' = false.
Proof.
  intros Ht Hrp He1 He2.
  rewrite (calibrate_aborts_at samples presses w t).
  - eexists. split; [reflexivity |].
    rewrite at_time_spec. unfold reset_world, reset_out.
    cbn [out now nread tare set_resetPressed resetPressed].
    split; [cbn [In]; tauto |]. split; [lia |]. repeat split.
  - lia.
  - rewrite reset_seen_spec, Hrp, He2. reflexivity.
  - intros u Hu. rewrite reset_seen_spec, Hrp.
    apply (edge_later presses ResetButton (now w) u (t - 1)); [lia | exact He1].
Qed.

Lemma reset_during_wait_is_prompt_witness :
  exists w',
    calibrateScale (fun _ : nat => 16773520) [(3500, ResetButton)] (mkWorld 123 0 true false 1000 0 []) = Some (tt, w') /\
    In (3500, LcdPrint "Resetting...") (out w') /\
    3500 + 4000 <= now w' /\
    nread w' = (10 + nread (mkWorld 123 0 true false 1000 0 []))%nat /\
    tare w' = Z.quot (wrapped_sum (fun _ : nat => 16773520) (nread (mkWorld 123 0 true false 1000 0 [])) 10 0) TARE_SAMPLES /\
    resetPressed w' = false.
Proof.
  apply (reset_during_wait_is_prompt (fun _ : nat => 16773520) [(3500, ResetButton)] (mkWorld 123 0 true false 1000 0 []) 3500).
  - cbn. lia.
  - reflexivity.
  - reflexivity.
  - reflexivity.
Defined.

(** X17: when both buttons were pressed before a call of [loop], the reset
    wins.  The call shows the calibration prompt, gives way at the first
    poll, runs the reset once and returns, after the two pauses of the
    reset (4 s or more), with both flags down and the tare of the reset;
    "Calibration Done" is never shown, and the request to calibrate is
    dropped with it. *)
Theorem reset_wins_over_calibrate (samples : nat -> Z)
    (presses : list (Z * Button)) (w : World) :
  calibratePressed w = true ->
  resetPressed w = true ->
  exists w',
    loop samples presses w = Some (tt, w') /\
    count_out is_prompt w' = S (count_out is_prompt w) /\
    count_out is_calibrated w' = count_out is_calibrated w /\
    count_out is_reset w' = S (count_out is_reset w) /\
    now w + 4000 <= now w' /\
    tare w' = Z.quot (wrapped_sum samples (nread w) 10 0) TARE_SAMPLES /\
    calibratePressed w' = false /\ resetPressed w' = false.
Proof.
  intros Hcp Hrp. exists (loop_world samples presses w).
  split; [apply loop_spec |].
  split; [rewrite loop_prompts, Hcp; reflexivity |].
  assert (Hc : calibrateScale samples presses w =
               Some (tt, set_resetPressed false
                           (reset_world samples presses (prompted w)))).
  { rewrite (calibrate_aborts_at samples presses w (now w)).
    - change (now w) with (now (prompted w)) at 1. rewrite at_time_now.
      reflexivity.
    - lia.
    - rewrite reset_seen_now. exact Hrp.
    - intros u Hu. lia. }
  unfold loop_world, after_calibrate. rewrite Hcp, Hc. cbn [world_of]. cbv zeta.
  change (resetPressed (set_calibratePressed false (set_resetPressed false
            (reset_world samples presses (prompted w))))) with false.
  cbv iota.
  assert (Hcal : count_out is_calibrated
                   (reset_world samples presses (prompted w))
                 = count_out is_calibrated w)
    by (rewrite count_reset_world, count_prompted; reflexivity).
  assert (Hres : count_out is_reset
                   (reset_world samples presses (prompted w))
                 = S (count_out is_reset w))
    by (rewrite count_reset_world, count_prompted; reflexivity).
  destruct (refresh_due _ _).
  - split; [exact Hcal |]. split; [exact Hres |].
    split; [cbn; lia |]. repeat split.
  - split; [exact Hcal |]. split; [exact Hres |].
    split; [cbn; lia |]. repeat split.
Qed.

Lemma reset_wins_over_calibrate_witness :
  exists w',
    loop (fun _ : nat => 16773520) [(2000, CalibrateButton)] (mkWorld 123 0 true true 1000 0 []) = Some (tt, w') /\
    count_out is_prompt w' = S (count_out is_prompt (mkWorld 123 0 true true 1000 0 [])) /\
    count_out is_calibrated w' = count_out is_calibrated (mkWorld 123 0 true true 1000 0 []) /\
    count_out is_reset w' = S (count_out is_reset (mkWorld 123 0 true true 1000 0 [])) /\
    now (mkWorld 123 0 true true 1000 0 []) + 4000 <= now w' /\
    tare w' = Z.quot (wrapped_sum (fun _ : nat => 16773520) (nread (mkWorld 123 0 true true 1000 0 [])) 10 0) TARE_SAMPLES /\
    calibratePressed w' = false /\ resetPressed w' = false.
Proof.
  apply (reset_wins_over_calibrate (fun _ : nat => 16773520) [(2000, CalibrateButton)] (mkWorld 123 0 true true 1000 0 [])).
  - reflexivity.
  - reflexivity.
Defined.


(** ** The float arithmetic

    [spec_float] rounds with [binary_round_aux]; the lemmas below follow it
    through the two cases the sketch meets: an integer of at most 24 bits,
    which is converted and subtracted without error, and the product of two
    24-bit mantissas, which is rounded to one of the two neighbouring
    floats. *)

Lemma digits2_pos_bounds p :
  2 ^ (Z.pos (digits2_pos p) - 1) <= Z.pos p < 2 ^ Z.pos (digits2_pos p).
Proof.
  induction p as [p IH | p IH |]; cbn [digits2_pos].
  - rewrite Pos2Z.inj_succ.
    replace (Z.succ (Z.pos (digits2_pos p)) - 1) with (Z.succ (Z.pos (digits2_pos p) - 1)) by lia.
    rewrite !Z.pow_succ_r by lia. lia.
  - rewrite Pos2Z.inj_succ.
    replace (Z.succ (Z.pos (digits2_pos p)) - 1) with (Z.succ (Z.pos (digits2_pos p) - 1)) by lia.
    rewrite !Z.pow_succ_r by lia. lia.
  - cbn. lia.
Qed.

Lemma digits_unique a b x :
  0 <= a -> 0 <= b ->
  2 ^ a <= x < 2 ^ (a + 1) -> 2 ^ b <= x < 2 ^ (b + 1) -> a = b.
Proof.
  intros Ha Hb H1 H2.
  destruct (Z.lt_trichotomy a b) as [H | [H | H]]; [| exact H |].
  - assert (2 ^ (a + 1) <= 2 ^ b) by (apply Z.pow_le_mono_r; lia). lia.
  - assert (2 ^ (b + 1) <= 2 ^ a) by (apply Z.pow_le_mono_r; lia). lia.
Qed.

Lemma iter_xO_spec d : forall p,
  Z.pos (Pos.iter xO p d) = Z.pos p * 2 ^ Z.pos d.
Proof.
  induction d as [| d IH] using Pos.peano_ind; intros p.
  - cbn [Pos.iter]. rewrite Pos2Z.inj_xO. change (2 ^ 1) with 2. lia.
  - rewrite Pos.iter_succ, Pos2Z.inj_succ, Z.pow_succ_r by lia.
    rewrite Pos2Z.inj_xO, IH. lia.
Qed.

Lemma shr_exact n : forall m q,
  Z.pos m = Z.pos q * 2 ^ Z.pos n ->
  iter_pos shr_1 n (Build_shr_record (Z.pos m) false false) =
  Build_shr_record (Z.pos q) false false.
Proof.
  induction n as [n IH | n IH |]; intros m q H; cbn [iter_pos].
  - replace (Z.pos n~1) with (Z.succ (Z.pos n + Z.pos n)) in H by lia.
    rewrite Z.pow_succ_r, Z.pow_add_r in H by lia.
    destruct m as [m | m |]; [lia | | lia].
    cbn [shr_1 orb].
    rewrite (IH m (Pos.iter xO q n)).
    + apply IH. apply iter_xO_spec.
    + rewrite iter_xO_spec. lia.
  - replace (Z.pos n~0) with (Z.pos n + Z.pos n) in H by lia.
    rewrite Z.pow_add_r in H by lia.
    rewrite (IH m (Pos.iter xO q n)).
    + apply IH. apply iter_xO_spec.
    + rewrite iter_xO_spec. lia.
  - change (2 ^ 1) with 2 in H.
    destruct m as [m | m |]; [lia | | lia].
    cbn. f_equal. lia.
Qed.

Lemma digits2_pos_eq p d :
  2 ^ (d - 1) <= Z.pos p < 2 ^ d -> 1 <= d -> Z.pos (digits2_pos p) = d.
Proof.
  intros H Hd. pose proof (digits2_pos_bounds p) as B.
  assert (E : Z.pos (digits2_pos p) - 1 = d - 1).
  { apply (digits_unique _ _ (Z.pos p)); try lia.
    - replace (Z.pos (digits2_pos p) - 1 + 1) with (Z.pos (digits2_pos p)) by lia. exact B.
    - replace (d - 1 + 1) with d by lia. exact H. }
  lia.
Qed.

Lemma fexp32 x : -125 <= x -> fexp prec emax x = x - 24.
Proof. intros H. unfold fexp, emin, prec, emax. lia. Qed.

(** A 24-digit mantissa is left alone by the rounding. *)
Lemma round_aux_canonical s q e :
  2 ^ 23 <= Z.pos q < 2 ^ 24 -> -149 <= e <= 104 ->
  binary_round_aux prec emax s (Z.pos q) e loc_Exact = S754_finite s q e.
Proof.
  intros Hq He.
  assert (Hd : Z.pos (digits2_pos q) = 24) by (apply digits2_pos_eq; lia).
  assert (Hs : shr_fexp prec emax (Z.pos q) e loc_Exact =
               (Build_shr_record (Z.pos q) false false, e)).
  { unfold shr_fexp. cbn [Zdigits2 shr_record_of_loc]. rewrite Hd, fexp32 by lia.
    replace (24 + e - 24 - e) with 0 by lia. reflexivity. }
  unfold binary_round_aux. rewrite Hs. cbn [shr_m loc_of_shr_record round_nearest_even].
  rewrite Hs. cbn [shr_m].
  replace (e <=? emax - prec) with true; [reflexivity |].
  symmetry. apply Z.leb_le. unfold emax, prec. lia.
Qed.

(** Zeros shifted out leave an exact result. *)
Lemma round_aux_shift s p q n e0 :
  0 < n -> Z.pos p = Z.pos q * 2 ^ n ->
  2 ^ 23 <= Z.pos q < 2 ^ 24 -> -149 <= e0 + n <= 104 ->
  binary_round_aux prec emax s (Z.pos p) e0 loc_Exact = S754_finite s q (e0 + n).
Proof.
  intros Hn Hp Hq He.
  assert (Hd : Z.pos (digits2_pos p) = 24 + n).
  { apply digits2_pos_eq; [| lia]. rewrite Hp.
    replace (24 + n - 1) with (23 + n) by lia.
    rewrite !Z.pow_add_r by lia.
    assert (0 < 2 ^ n) by (apply Z.pow_pos_nonneg; lia). nia. }
  assert (Hs : shr_fexp prec emax (Z.pos p) e0 loc_Exact =
               (Build_shr_record (Z.pos q) false false, e0 + n)).
  { unfold shr_fexp. cbn [Zdigits2 shr_record_of_loc]. rewrite Hd, fexp32 by lia.
    replace (24 + n + e0 - 24 - e0) with n by lia.
    destruct n as [| n | n]; try lia.
    unfold shr. rewrite (shr_exact n p q Hp). reflexivity. }
  assert (Hs2 : shr_fexp prec emax (Z.pos q) (e0 + n) loc_Exact =
               (Build_shr_record (Z.pos q) false false, e0 + n)).
  { unfold shr_fexp. cbn [Zdigits2 shr_record_of_loc].
    rewrite (digits2_pos_eq q 24), fexp32 by lia.
    replace (24 + (e0 + n) - 24 - (e0 + n)) with 0 by lia. reflexivity. }
  unfold binary_round_aux. rewrite Hs. cbn [shr_m loc_of_shr_record round_nearest_even].
  rewrite Hs2. cbn [shr_m].
  replace (e0 + n <=? emax - prec) with true; [reflexivity |].
  symmetry. apply Z.leb_le. unfold emax, prec. lia.
Qed.

(** Rounding an integer of at most 24 digits, given with [k] trailing
    zeros at exponent [-k], is exact. *)
Lemma round_integer s a p k :
  Z.pos a < 2 ^ 24 -> 0 <= k <= 100 -> Z.pos p = Z.pos a * 2 ^ k ->
  exists q e,
    binary_round prec emax s p (- k) = S754_finite s q e /\
    -24 < e <= 0 /\ Z.pos q = Z.pos a * 2 ^ (- e) /\
    2 ^ 23 <= Z.pos q < 2 ^ 24.
Proof.
  intros Ha Hk Hp.
  pose proof (digits2_pos_bounds a) as Ba.
  set (dD := Z.pos (digits2_pos a)) in *.
  assert (HdD : 1 <= dD <= 24).
  { split; [unfold dD; lia |].
    destruct (Z_le_gt_dec dD 24) as [H | H]; [exact H |].
    assert (2 ^ 24 <= 2 ^ (dD - 1)) by (apply Z.pow_le_mono_r; lia). lia. }
  set (e := dD - 24).
  assert (Hpow : 2 ^ (dD - 1) * 2 ^ (- e) = 2 ^ 23 /\ 2 ^ dD * 2 ^ (- e) = 2 ^ 24).
  { unfold e. rewrite <- !Z.pow_add_r by lia.
    split; f_equal; lia. }
  assert (Hpe : 0 < 2 ^ (- e)) by (apply Z.pow_pos_nonneg; unfold e; lia).
  set (q := Z.to_pos (Z.pos a * 2 ^ (- e))).
  assert (Hq : Z.pos q = Z.pos a * 2 ^ (- e)) by (unfold q; rewrite Z2Pos.id; nia).
  assert (Hq24 : 2 ^ 23 <= Z.pos q < 2 ^ 24) by (rewrite Hq; nia).
  assert (Hpk : 0 < 2 ^ k) by (apply Z.pow_pos_nonneg; lia).
  assert (Hdp : Z.pos (digits2_pos p) = dD + k).
  { apply digits2_pos_eq; [| lia]. rewrite Hp.
    replace (dD + k - 1) with (dD - 1 + k) by lia.
    rewrite !Z.pow_add_r by lia. nia. }
  exists q, e. split; [| split; [unfold e; lia | split; [exact Hq | exact Hq24]]].
  unfold binary_round. rewrite Hdp, fexp32 by lia.
  replace (dD + k + - k - 24) with e by (unfold e; lia).
  unfold shl_align.
  destruct (e - - k) as [| n | d] eqn:Hn.
  - assert (p = q) by (apply Pos2Z.inj; rewrite Hp, Hq; f_equal; f_equal; lia).
    subst p. replace (- k) with e by lia.
    apply round_aux_canonical; [exact Hq24 | unfold e; lia].
  - replace e with (- k + Z.pos n) by lia.
    apply round_aux_shift; try lia.
    rewrite Hp, Hq. replace k with (- e + Z.pos n) at 1 by lia.
    rewrite Z.pow_add_r by (unfold e; lia). lia.
  - assert (Pos.iter xO p d = q).
    { apply Pos2Z.inj. rewrite iter_xO_spec, Hp, Hq.
      replace (- e) with (k + Z.pos d) by lia.
      rewrite Z.pow_add_r by lia. lia. }
    rewrite H. apply round_aux_canonical; [exact Hq24 | unfold e; lia].
Qed.

(** The same for a signed integer [D]. *)
Lemma normalize_integer D k :
  D <> 0 -> Z.abs D < 2 ^ 24 -> 0 <= k <= 100 ->
  exists q e,
    binary_normalize prec emax (D * 2 ^ k) (- k) false =
      S754_finite (D <? 0) q e /\
    -24 < e <= 0 /\ Z.pos q = Z.abs D * 2 ^ (- e) /\
    2 ^ 23 <= Z.pos q < 2 ^ 24.
Proof.
  intros HD Hlt Hk.
  assert (Hpk : 0 < 2 ^ k) by (apply Z.pow_pos_nonneg; lia).
  destruct D as [| a | a]; [lia | |].
  - destruct (Z.pos a * 2 ^ k) as [| p | p] eqn:Hp; try lia.
    cbn [binary_normalize]. change (Z.pos a <? 0) with false.
    apply (round_integer false a p k); try lia.
  - destruct (Z.neg a * 2 ^ k) as [| p | p] eqn:Hp; try lia.
    cbn [binary_normalize]. change (Z.neg a <? 0) with true.
    apply (round_integer true a p k); try lia.
Qed.

Lemma to_long_integer D q e :
  Z.abs D < 2 ^ 31 -> e <= 0 -> Z.pos q = Z.abs D * 2 ^ (- e) ->
  to_long (S754_finite (D <? 0) q e) = D.
Proof.
  intros HD He Hq. unfold to_long, LONG_MIN, LONG_MAX.
  assert (Hmag : (if 0 <=? e then Z.pos q * 2 ^ e else Z.pos q / 2 ^ (- e)) = Z.abs D).
  { destruct (Z.leb_spec 0 e).
    - replace e with 0 in * by lia. rewrite Hq. cbn. lia.
    - rewrite Hq. apply Z.div_mul.
      assert (0 < 2 ^ (- e)) by (apply Z.pow_pos_nonneg; lia). lia. }
  rewrite Hmag. destruct (Z.ltb_spec D 0); lia.
Qed.

Lemma of_long_exact D :
  D <> 0 -> Z.abs D < 2 ^ 24 ->
  exists q e,
    of_long D = S754_finite (D <? 0) q e /\
    -24 < e <= 0 /\ Z.pos q = Z.abs D * 2 ^ (- e) /\
    2 ^ 23 <= Z.pos q < 2 ^ 24.
Proof.
  intros HD Hlt. unfold of_long.
  pose proof (normalize_integer D 0 HD Hlt ltac:(lia)) as H.
  change (2 ^ 0) with 1 in H. rewrite Z.mul_1_r in H. exact H.
Qed.

Lemma shl_align_fst m e ez :
  ez <= e -> Z.pos (fst (shl_align m e ez)) = Z.pos m * 2 ^ (e - ez).
Proof.
  intros H. unfold shl_align.
  destruct (ez - e) as [| n | d] eqn:Hd; try lia.
  - replace (e - ez) with 0 by lia. cbn. lia.
  - cbn [fst]. rewrite iter_xO_spec. f_equal. f_equal. lia.
Qed.

Lemma known_counts :
  div KNOWN_WEIGHT CALIBRATION_FACTOR = S754_finite false 15139840 (-9).
Proof. vm_compute. reflexivity. Qed.

Lemma sub_known_counts a :
  a <> 0 -> a <> 29570 -> Z.abs a < 2 ^ 24 -> Z.abs (a - 29570) < 2 ^ 24 ->
  exists q e,
    sub (of_long a) (div KNOWN_WEIGHT CALIBRATION_FACTOR) =
      S754_finite (a - 29570 <? 0) q e /\
    -24 < e <= 0 /\ Z.pos q = Z.abs (a - 29570) * 2 ^ (- e) /\
    2 ^ 23 <= Z.pos q < 2 ^ 24.
Proof.
  intros Ha0 HaK Ha HD.
  destruct (of_long_exact a Ha0 Ha) as (m & e & Hx & He & Hm & _).
  rewrite Hx, known_counts. unfold sub, SFsub. cbv zeta.
  set (ez := Z.min e (-9)).
  assert (Hez : -24 < ez <= -9 /\ ez <= e) by (unfold ez; lia).
  rewrite !shl_align_fst by lia.
  assert (Hz : 0 < 2 ^ (- ez)) by (apply Z.pow_pos_nonneg; lia).
  assert (E1 : cond_Zopp (a <? 0) (Z.pos m * 2 ^ (e - ez)) = a * 2 ^ (- ez)).
  { rewrite Hm, <- Z.mul_assoc, <- Z.pow_add_r by lia.
    replace (- e + (e - ez)) with (- ez) by lia.
    unfold cond_Zopp. destruct (Z.ltb_spec a 0); lia. }
  assert (E2 : cond_Zopp false (15139840 * 2 ^ (-9 - ez)) = 29570 * 2 ^ (- ez)).
  { cbn [cond_Zopp]. change 15139840 with (29570 * 2 ^ 9).
    rewrite <- Z.mul_assoc, <- Z.pow_add_r by lia.
    f_equal. f_equal. lia. }
  rewrite E1, E2, <- Z.mul_sub_distr_r.
  pose proof (normalize_integer (a - 29570) (- ez)) as H.
  rewrite Z.opp_involutive in H. apply H; lia.
Qed.

Lemma calibrated_tare_value r :
  hx711_range r -> calibrated_tare r = r - 29570.
Proof.
  unfold hx711_range. intros Hr. unfold calibrated_tare.
  destruct (Z.eq_dec r 0) as [-> | H0]; [vm_compute; reflexivity |].
  destruct (Z.eq_dec r 29570) as [-> | HK]; [vm_compute; reflexivity |].
  destruct (sub_known_counts r H0 HK) as (q & e & Hs & He & Hq & _); try lia.
  rewrite Hs. apply to_long_integer; lia.
Qed.

Lemma shr_1_floor mrs :
  0 <= shr_m mrs ->
  shr_m (shr_1 mrs) = shr_m mrs / 2 /\ 0 <= shr_m (shr_1 mrs).
Proof.
  destruct mrs as [m r s]. cbn [shr_m]. intros H.
  destruct m as [| p | p]; [cbn; lia | | lia].
  destruct p as [p | p |]; cbn [shr_1 shr_m].
  - split; [| lia]. apply Z.div_unique with (r := 1); lia.
  - split; [| lia]. apply Z.div_unique with (r := 0); lia.
  - split; [reflexivity | lia].
Qed.

(** What is left of the mantissa after [n] single shifts. *)
Lemma shr_floor n : forall mrs,
  0 <= shr_m mrs ->
  shr_m (iter_pos shr_1 n mrs) = shr_m mrs / 2 ^ Z.pos n /\
  0 <= shr_m (iter_pos shr_1 n mrs).
Proof.
  induction n as [n IH | n IH |]; intros mrs H; cbn [iter_pos].
  - destruct (shr_1_floor mrs H) as (E1 & P1).
    destruct (IH _ P1) as (E2 & P2). destruct (IH _ P2) as (E3 & P3).
    split; [| exact P3]. rewrite E3, E2, E1.
    assert (0 < 2 ^ Z.pos n) by (apply Z.pow_pos_nonneg; lia).
    rewrite !Z.div_div by lia. f_equal.
    replace (Z.pos n~1) with (Z.succ (Z.pos n + Z.pos n)) by lia.
    rewrite Z.pow_succ_r, Z.pow_add_r by lia. lia.
  - destruct (IH _ H) as (E2 & P2). destruct (IH _ P2) as (E3 & P3).
    split; [| exact P3]. rewrite E3, E2.
    assert (0 < 2 ^ Z.pos n) by (apply Z.pow_pos_nonneg; lia).
    rewrite !Z.div_div by lia. f_equal.
    replace (Z.pos n~0) with (Z.pos n + Z.pos n) by lia.
    rewrite Z.pow_add_r by lia. lia.
  - change (2 ^ 1) with 2. apply shr_1_floor. exact H.
Qed.

Lemma round_nearest_even_near m l :
  m <= round_nearest_even m l <= m + 1.
Proof.
  unfold round_nearest_even. destruct l as [| []]; try lia.
  destruct (Z.even m); lia.
Qed.

(** Rounding a product: the mantissa kept is the floor of the exact one or
    the next integer. *)
Lemma round_aux_inexact s p e0 n :
  0 < n -> 2 ^ (23 + n) <= Z.pos p < 2 ^ (24 + n) ->
  -149 <= e0 + n <= 103 ->
  exists m' e',
    binary_round_aux prec emax s (Z.pos p) e0 loc_Exact = S754_finite s m' e' /\
    2 ^ 23 <= Z.pos m' < 2 ^ 24 /\
    e0 + n <= e' <= e0 + n + 1 /\
    Z.pos p / 2 ^ n <= Z.pos m' * 2 ^ (e' - (e0 + n)) <= Z.pos p / 2 ^ n + 1.
Proof.
  intros Hn Hp He.
  assert (Hpn : 0 < 2 ^ n) by (apply Z.pow_pos_nonneg; lia).
  assert (Hd : Z.pos (digits2_pos p) = 24 + n).
  { apply digits2_pos_eq; [| lia].
    replace (24 + n - 1) with (23 + n) by lia. exact Hp. }
  set (F := Z.pos p / 2 ^ n).
  assert (HF : 2 ^ 23 <= F < 2 ^ 24).
  { unfold F. rewrite !Z.pow_add_r in Hp by lia. split.
    - apply Z.div_le_lower_bound; lia.
    - apply Z.div_lt_upper_bound; lia. }
  destruct n as [| n | n]; try lia.
  destruct (shr_floor n (Build_shr_record (Z.pos p) false false)) as (Hm & _);
    [cbn; lia |].
  cbn [shr_m] in Hm. fold F in Hm.
  assert (Hs : shr_fexp prec emax (Z.pos p) e0 loc_Exact =
               (iter_pos shr_1 n (Build_shr_record (Z.pos p) false false),
                e0 + Z.pos n)).
  { unfold shr_fexp. cbn [Zdigits2 shr_record_of_loc]. rewrite Hd, fexp32 by lia.
    replace (24 + Z.pos n + e0 - 24 - e0) with (Z.pos n) by lia. reflexivity. }
  unfold binary_round_aux. rewrite Hs.
  set (mrs := iter_pos shr_1 n (Build_shr_record (Z.pos p) false false)) in *.
  pose proof (round_nearest_even_near (shr_m mrs) (loc_of_shr_record mrs)) as Hr.
  rewrite Hm in *.
  set (m1 := round_nearest_even F (loc_of_shr_record mrs)) in *.
  destruct (Z.eq_dec m1 (2 ^ 24)) as [E | NE].
  - rewrite E. exists (Z.to_pos (2 ^ 23)), (e0 + Z.pos n + 1).
    split.
    + change (shr_fexp prec emax (2 ^ 24) (e0 + Z.pos n) loc_Exact)
        with (shr (Build_shr_record (2 ^ 24) false false) (e0 + Z.pos n)
                  (fexp prec emax (25 + (e0 + Z.pos n)) - (e0 + Z.pos n))).
      rewrite fexp32 by lia.
      replace (25 + (e0 + Z.pos n) - 24 - (e0 + Z.pos n)) with 1 by lia.
      cbn [shr iter_pos]. change (shr_1 _) with (Build_shr_record (2 ^ 23) false false).
      cbn [shr_m]. change (2 ^ 23) with (Z.pos (Z.to_pos (2 ^ 23))) at 1.
      cbv iota.
      replace (e0 + Z.pos n + 1 <=? emax - prec) with true; [reflexivity |].
      symmetry. apply Z.leb_le. unfold emax, prec. lia.
    + change (Z.pos (Z.to_pos (2 ^ 23))) with (2 ^ 23).
      replace (e0 + Z.pos n + 1 - (e0 + Z.pos n)) with 1 by lia.
      change (2 ^ 23 * 2 ^ 1) with (2 ^ 24). lia.
  - assert (H1 : 2 ^ 23 <= m1 < 2 ^ 24) by lia.
    destruct m1 as [| q | q] eqn:Em; try lia.
    exists q, (e0 + Z.pos n).
    assert (Hs2 : shr_fexp prec emax (Z.pos q) (e0 + Z.pos n) loc_Exact =
                  (Build_shr_record (Z.pos q) false false, e0 + Z.pos n)).
    { unfold shr_fexp. cbn [Zdigits2 shr_record_of_loc].
      rewrite (digits2_pos_eq q 24), fexp32 by lia.
      replace (24 + (e0 + Z.pos n) - 24 - (e0 + Z.pos n)) with 0 by lia.
      reflexivity. }
    rewrite Hs2. cbn [shr_m].
    replace (e0 + Z.pos n <=? emax - prec) with true
      by (symmetry; apply Z.leb_le; unfold emax, prec; lia).
    split; [reflexivity |]. split; [lia |]. split; [lia |].
    replace (e0 + Z.pos n - (e0 + Z.pos n)) with 0 by lia.
    change (2 ^ 0) with 1. lia.
Qed.

Lemma factor_value : CALIBRATION_FACTOR = S754_finite false 14524746 (-31).
Proof. vm_compute. reflexivity. Qed.

Lemma minus_one_value : of_long (-1) = S754_finite true 8388608 (-23).
Proof. vm_compute. reflexivity. Qed.

(** The weight for a count offset [d = raw - t] of less than 24 bits: the
    sign is the opposite of the offset's, and the magnitude, scaled by 2^31,
    is within one part in 2^23 of [|d| * 14524746]. *)
Lemma weight_of_structure raw t :
  raw - t <> 0 -> Z.abs (raw - t) < 2 ^ 24 ->
  exists m e,
    weight_of raw t = S754_finite (negb (raw - t <? 0)) m e /\
    -31 <= e < 0 /\
    2 ^ 23 * Z.abs (Z.pos m * 2 ^ (e + 31) - Z.abs (raw - t) * 14524746)
      <= Z.abs (raw - t) * 14524746.
Proof.
  intros Hd0 Hd. unfold weight_of.
  rewrite wrap_long_small by (unfold in_long, LONG_MIN, LONG_MAX; lia).
  set (d := raw - t) in *.
  destruct (of_long_exact d Hd0 Hd) as (q & e & Hx & He & Hq & Hq24).
  rewrite Hx, factor_value, minus_one_value.
  unfold mul at 2. cbn [SFmul]. rewrite xorb_false_r.
  assert (Hn : exists n, (n = 23 \/ n = 24) /\
                 2 ^ (23 + n) <= Z.pos (q * 14524746) < 2 ^ (24 + n)).
  { rewrite Pos2Z.inj_mul.
    destruct (Z_lt_ge_dec (Z.pos q * 14524746) (2 ^ 47)) as [H | H].
    - exists 23. split; [left; reflexivity |]. change (23 + 23) with 46.
      change (24 + 23) with 47. lia.
    - exists 24. split; [right; reflexivity |]. change (23 + 24) with 47.
      change (24 + 24) with 48. lia. }
  destruct Hn as (n & Hn & Hp).
  destruct (round_aux_inexact (d <? 0) (q * 14524746) (e + -31) n)
    as (m1 & e1 & Hr & Hm1 & He1 & HV); try lia.
  rewrite Hr. unfold mul. cbn [SFmul].
  exists m1, e1.
  split.
  { rewrite xorb_true_r.
    replace e1 with (e1 + -23 + 23) at 2 by lia.
    apply round_aux_shift; lia. }
  split; [lia |].
  (* the bound *)
  set (a := Z.abs d) in *. set (c := 14524746) in *.
  assert (HPE : 0 < 2 ^ (- e)) by (apply Z.pow_pos_nonneg; lia).
  assert (HG : 0 < 2 ^ (n + e)) by (apply Z.pow_pos_nonneg; lia).
  assert (Hn2 : 2 ^ n = 2 ^ (n + e) * 2 ^ (- e)).
  { rewrite <- Z.pow_add_r by lia. f_equal. lia. }
  assert (Hx2 : Z.pos m1 * 2 ^ (e1 + 31) =
                Z.pos m1 * 2 ^ (e1 - (e + -31 + n)) * 2 ^ (n + e)).
  { rewrite <- Z.mul_assoc, <- Z.pow_add_r by lia. f_equal. f_equal. lia. }
  assert (Hpn : 0 < 2 ^ n) by (apply Z.pow_pos_nonneg; lia).
  rewrite Pos2Z.inj_mul in Hp, HV. fold c in Hp, HV.
  pose proof (Z.mul_div_le (Z.pos q * c) (2 ^ n) Hpn) as Hlo.
  pose proof (Z.mul_succ_div_gt (Z.pos q * c) (2 ^ n) Hpn) as Hhi.
  set (F := Z.pos q * c / 2 ^ n) in *.
  set (V := Z.pos m1 * 2 ^ (e1 - (e + -31 + n))) in *.
  rewrite Hx2. rewrite Hq in Hlo, Hhi, Hp.
  replace (23 + n) with (23 + (n + e) + - e) in Hp by lia.
  rewrite !Z.pow_add_r in Hp by lia.
  rewrite Hn2 in Hlo, Hhi.
  set (G := 2 ^ (n + e)) in *. set (PE := 2 ^ (- e)) in *.
  assert (Hp23 : 2 ^ 23 * G <= a * c).
  { apply Z.mul_le_mono_pos_r with (p := PE); [exact HPE |].
    replace (a * c * PE) with (a * PE * c) by ring. apply Hp. }
  assert (L1 : F * G <= a * c).
  { apply Z.mul_le_mono_pos_r with (p := PE); [exact HPE |].
    replace (F * G * PE) with (G * PE * F) by ring.
    replace (a * c * PE) with (a * PE * c) by ring. exact Hlo. }
  assert (L2 : a * c < (F + 1) * G).
  { apply Z.mul_lt_mono_pos_r with (p := PE); [exact HPE |].
    replace ((F + 1) * G * PE) with (G * PE * Z.succ F) by ring.
    replace (a * c * PE) with (a * PE * c) by ring. exact Hhi. }
  assert (H1 : F * G <= V * G) by (apply Z.mul_le_mono_nonneg_r; lia).
  assert (H2 : V * G <= (F + 1) * G) by (apply Z.mul_le_mono_nonneg_r; lia).
  lia.
Qed.

Lemma to_Q_scaled s m e :
  -31 <= e < 0 ->
  (to_Q (S754_finite s m e) ==
   (if s then - (Z.pos m * 2 ^ (e + 31)) else Z.pos m * 2 ^ (e + 31)) # 2147483648)%Q.
Proof.
  intros He. unfold to_Q.
  replace (0 <=? e) with false by (symmetry; apply Z.leb_gt; lia).
  assert (Hp : 0 < 2 ^ (- e)) by (apply Z.pow_pos_nonneg; lia).
  assert (E : 2 ^ (e + 31) * 2 ^ (- e) = 2147483648).
  { rewrite <- Z.pow_add_r by lia. replace (e + 31 + - e) with 31 by lia.
    reflexivity. }
  destruct s; unfold Qeq, Qopp; cbn [Qnum Qden]; rewrite Z2Pos.id by lia;
    rewrite <- E; ring.
Qed.

Lemma weight_of_sign raw t :
  Z.abs (raw - t) < 2 ^ 24 ->
  ((0 < to_Q (weight_of raw t))%Q <-> raw < t) /\
  ((to_Q (weight_of raw t) < 0)%Q <-> t < raw).
Proof.
  intros Hd. destruct (Z.eq_dec (raw - t) 0) as [E0 | Hd0].
  - assert (E : raw = t) by lia. subst raw. rewrite weight_of_same.
    split; split; intros H; try lia; vm_compute in H; discriminate.
  - destruct (weight_of_structure raw t Hd0 Hd) as (m & e & Hx & He & _).
    rewrite Hx, (to_Q_scaled _ m e He).
    assert (Hp : 0 < Z.pos m * 2 ^ (e + 31)).
    { assert (0 < 2 ^ (e + 31)) by (apply Z.pow_pos_nonneg; lia). lia. }
    destruct (Z.ltb_spec (raw - t) 0) as [Hneg | Hpos]; cbn [negb];
      unfold Qlt; cbn [Qnum Qden]; split; split; intros H; lia.
Qed.

Lemma weight_of_magnitude raw t :
  Z.abs (raw - t) < 2 ^ 24 ->
  (Qabs (to_Q (weight_of raw t)) <= inject_Z (Z.abs (raw - t)) * (68 # 10000))%Q.
Proof.
  intros Hd. destruct (Z.eq_dec (raw - t) 0) as [E0 | Hd0].
  - assert (E : raw = t) by lia. subst raw. rewrite weight_of_same.
    replace (t - t) with 0 by lia. vm_compute. discriminate.
  - destruct (weight_of_structure raw t Hd0 Hd) as (m & e & Hx & He & Hb).
    rewrite Hx, (to_Q_scaled _ m e He).
    set (x := Z.pos m * 2 ^ (e + 31)) in *.
    assert (Hx0 : 0 <= x).
    { unfold x. assert (0 < 2 ^ (e + 31)) by (apply Z.pow_pos_nonneg; lia). lia. }
    change (2 ^ 23) with 8388608 in Hb.
    apply Qabs_Qle_condition.
    destruct (negb (raw - t <? 0));
      unfold Qle, Qplus, Qmult, Qopp, inject_Z; cbn [Qnum Qden]; split; lia.
Qed.

Lemma weight_of_accuracy raw t :
  Z.abs (raw - t) < 2 ^ 24 ->
  (Qabs (to_Q (weight_of raw t) + inject_Z (raw - t) * (100 # 14785))
   <= Qabs (inject_Z (raw - t)) * (1 # 1000000000))%Q.
Proof.
  intros Hd. set (d := raw - t) in *.
  destruct (Z.eq_dec d 0) as [E0 | Hd0].
  { assert (Es : raw = t) by (unfold d in E0; lia).
    rewrite Es, weight_of_same, E0. vm_compute. discriminate. }
  destruct (weight_of_structure raw t Hd0 Hd) as (m & e & Hx & He & Hb).
  fold d in Hx, Hb. rewrite Hx, (to_Q_scaled _ m e He).
  set (x := Z.pos m * 2 ^ (e + 31)) in *.
  assert (Hx0 : 0 <= x).
  { unfold x. assert (0 < 2 ^ (e + 31)) by (apply Z.pow_pos_nonneg; lia). lia. }
  change (2 ^ 23) with 8388608 in Hb.
  apply Qabs_Qle_condition.
  destruct (Z.ltb_spec d 0) as [Hneg | Hpos]; cbn [negb].
  - rewrite (Qabs_neg (inject_Z d)) by (unfold Qle; cbn; lia).
    unfold Qle, Qplus, Qmult, Qopp, inject_Z; cbn [Qnum Qden].
    split; lia.
  - rewrite (Qabs_pos (inject_Z d)) by (unfold Qle; cbn; lia).
    unfold Qle, Qplus, Qmult, Qopp, inject_Z; cbn [Qnum Qden].
    split; lia.
Qed.

Lemma weight_of_known rk : (to_Q (weight_of rk (rk - 29570)) == - (200))%Q.
Proof.
  unfold weight_of. replace (rk - (rk - 29570)) with 29570 by lia.
  vm_compute. reflexivity.
Qed.

(** X11: the float computation of [calibrateScale] loses nothing.  For every
    averaged reading [r] of the 24-bit converter,
    [raw_known_weight - (KNOWN_WEIGHT / CALIBRATION_FACTOR)], evaluated in
    binary32 and converted back to [long], is exactly [r - 29570]: the
    quotient is the float 29570.0 and the subtraction is exact. *)
Theorem calibrated_tare_exact (r : Z) :
  hx711_range r ->
  to_long (sub (of_long r) (div KNOWN_WEIGHT CALIBRATION_FACTOR)) = r - 29570.
Proof.
  apply calibrated_tare_value.
Qed.

Lemma calibrated_tare_exact_witness :
  to_long (sub (of_long 16743950) (div KNOWN_WEIGHT CALIBRATION_FACTOR)) = 16743950 - 29570.
Proof.
  apply (calibrated_tare_exact 16743950).
  - unfold hx711_range. lia.
Defined.

(** X12: whatever the readings of the 24-bit converter, a calibration that
    no reset cuts short installs the tare [raw_known - 29570], where
    [raw_known] is the truncated quotient of its ten readings; and if the
    converter then delivers [raw_known] again, [getWeight] returns the float
    -200.0.  The sign slip of [calibrateScale] does not depend on the
    input. *)
Theorem calibration_always_negates (samples : nat -> Z)
    (presses : list (Z * Button)) (w : World) :
  (forall k, (nread w <= k < nread w + 10)%nat -> hx711_range (samples k)) ->
  resetPressed w = false ->
  edge presses ResetButton (now w) (now w + 4999) = false ->
  samples (10 + nread w)%nat =
    Z.quot (total (readings samples (nread w) 10)) TARE_SAMPLES ->
  exists wc x w',
    calibrateScale samples presses w = Some (tt, wc) /\
    tare wc =
      Z.quot (total (readings samples (nread w) 10)) TARE_SAMPLES - 29570 /\
    getWeight samples wc = Some (x, w') /\
    (to_Q x == - (200))%Q.
Proof.
  intros Hr Hrp He Hs. exists (calibrated_world samples presses w).
  destruct (tare_between samples w (- 2 ^ 23) (2 ^ 24 - 1)) as (E & B).
  { unfold hx711_range. lia. }
  { unfold hx711_range. lia. }
  { intros k Hk. specialize (Hr k Hk). unfold hx711_range in Hr. lia. }
  assert (Ht : tare (calibrated_world samples presses w) =
               Z.quot (total (readings samples (nread w) 10)) TARE_SAMPLES - 29570).
  { cbn [tare calibrated_world]. rewrite E.
    apply calibrated_tare_value. unfold hx711_range. lia. }
  eexists. eexists.
  split; [apply calibrate_completes; assumption |].
  split; [exact Ht |].
  split; [apply getWeight_spec |].
  rewrite Ht. change (nread (calibrated_world samples presses w))
    with (10 + nread w)%nat.
  rewrite Hs. apply weight_of_known.
Qed.

Lemma calibration_always_negates_witness :
  exists wc x w',
    calibrateScale (fun _ : nat => 16743950) [] Scale_new = Some (tt, wc) /\
    tare wc =
      Z.quot (total (readings (fun _ : nat => 16743950) (nread Scale_new) 10)) TARE_SAMPLES - 29570 /\
    getWeight (fun _ : nat => 16743950) wc = Some (x, w') /\
    (to_Q x == - (200))%Q.
Proof.
  apply (calibration_always_negates (fun _ : nat => 16743950) [] Scale_new).
  - intros k Hk. unfold hx711_range. lia.
  - reflexivity.
  - reflexivity.
  - reflexivity.
Defined.

(** X13: for every count offset [raw - tare] of less than 24 bits, the
    binary32 value [getWeight] returns is within one part in 10^9 per count
    of the real number [-(raw - tare) * 100 / 14785]: the conversion of the
    offset is exact, the factor is the float nearest to 100/14785, the
    product is rounded once and the change of sign is exact. *)
Theorem getWeight_accuracy (samples : nat -> Z) (w : World) :
  Z.abs (samples (nread w) - tare w) < 2 ^ 24 ->
  exists x w',
    getWeight samples w = Some (x, w') /\
    (Qabs (to_Q x + inject_Z (samples (nread w) - tare w) * (100 # 14785))
     <= Qabs (inject_Z (samples (nread w) - tare w)) * (1 # 1000000000))%Q.
Proof.
  intros Hd. rewrite getWeight_spec. eexists. eexists. split; [reflexivity |].
  apply weight_of_accuracy. exact Hd.
Qed.

Lemma getWeight_accuracy_witness :
  exists x w',
    getWeight (fun _ : nat => 16758735%Z) (mkWorld 16773520 0 false false 0 0 []) = Some (x, w') /\
    (Qabs (to_Q x + inject_Z ((fun _ : nat => 16758735%Z) (nread (mkWorld 16773520 0 false false 0 0 [])) - tare (mkWorld 16773520 0 false false 0 0 [])) * (100 # 14785))
     <= Qabs (inject_Z ((fun _ : nat => 16758735%Z) (nread (mkWorld 16773520 0 false false 0 0 [])) - tare (mkWorld 16773520 0 false false 0 0 []))) * (1 # 1000000000))%Q.
Proof.
  apply (getWeight_accuracy (fun _ : nat => 16758735%Z) (mkWorld 16773520 0 false false 0 0 [])).
  - cbn. lia.
Defined.

(** X14: for every count offset of less than 24 bits, [getWeight] reports a
    positive weight exactly when the raw reading is below the tare, a
    negative one exactly when it is above, and zero when they are equal:
    the orientation of the cell ([RAW_100G < RAW_0G]) is undone by the
    factor [-1] for every input. *)
Theorem getWeight_sign (samples : nat -> Z) (w : World) :
  Z.abs (samples (nread w) - tare w) < 2 ^ 24 ->
  exists x w',
    getWeight samples w = Some (x, w') /\
    ((0 < to_Q x)%Q <-> samples (nread w) < tare w) /\
    ((to_Q x < 0)%Q <-> tare w < samples (nread w)).
Proof.
  intros Hd. rewrite getWeight_spec. eexists. eexists. split; [reflexivity |].
  apply weight_of_sign. exact Hd.
Qed.

Lemma getWeight_sign_witness :
  exists x w',
    getWeight (fun _ : nat => 16758735%Z) (mkWorld 16773520 0 false false 0 0 []) = Some (x, w') /\
    ((0 < to_Q x)%Q <-> (fun _ : nat => 16758735%Z) (nread (mkWorld 16773520 0 false false 0 0 [])) < tare (mkWorld 16773520 0 false false 0 0 [])) /\
    ((to_Q x < 0)%Q <-> tare (mkWorld 16773520 0 false false 0 0 []) < (fun _ : nat => 16758735%Z) (nread (mkWorld 16773520 0 false false 0 0 []))).
Proof.
  apply (getWeight_sign (fun _ : nat => 16758735%Z) (mkWorld 16773520 0 false false 0 0 [])).
  - cbn. lia.
Defined.

(** X15: after a reset taken while the readings of the 24-bit converter stay
    within [lo, hi], the next weight [getWeight] reports is at most
    [(hi - lo) * 0.0068] in magnitude: the residual after re-zeroing is
    bounded by the spread of the readings. *)
Theorem reset_weight_bound (samples : nat -> Z) (presses : list (Z * Button))
    (w : World) (lo hi : Z) :
  hx711_range lo ->
  hx711_range hi ->
  hi - lo < 2 ^ 24 ->
  (forall k, (nread w <= k <= nread w + 10)%nat -> lo <= samples k <= hi) ->
  exists w' x w'',
    resetScale samples presses w = Some (tt, w') /\
    getWeight samples w' = Some (x, w'') /\
    (Qabs (to_Q x) <= inject_Z (hi - lo) * (68 # 10000))%Q.
Proof.
  intros Hlo Hhi Hsp Hr.
  destruct (tare_between samples w lo hi Hlo Hhi) as (E & B).
  { intros k Hk. apply Hr. lia. }
  exists (reset_world samples presses w). eexists. eexists.
  split; [apply resetScale_spec |].
  split; [apply getWeight_spec |].
  cbn [tare nread reset_world]. rewrite E.
  assert (Hs : lo <= samples (10 + nread w)%nat <= hi) by (apply Hr; lia).
  set (s := samples (10 + nread w)%nat) in *.
  set (q := Z.quot (total (readings samples (nread w) 10)) TARE_SAMPLES) in *.
  assert (Hd : Z.abs (s - q) <= hi - lo) by lia.
  eapply Qle_trans; [apply weight_of_magnitude; lia |].
  unfold Qle, Qmult, inject_Z; cbn [Qnum Qden]. lia.
Qed.

Lemma reset_weight_bound_witness :
  exists w' x w'',
    resetScale (fun n : nat => if Nat.even n then 16773520 else 16773530) [] Scale_new = Some (tt, w') /\
    getWeight (fun n : nat => if Nat.even n then 16773520 else 16773530) w' = Some (x, w'') /\
    (Qabs (to_Q x) <= inject_Z (16773530 - 16773520) * (68 # 10000))%Q.
Proof.
  apply (reset_weight_bound (fun n : nat => if Nat.even n then 16773520 else 16773530) [] Scale_new 16773520 16773530).
  - unfold hx711_range. lia.
  - unfold hx711_range. lia.
  - lia.
  - intros k Hk. destruct (Nat.even k); lia.
Defined.
